(** * pstop: the application package (app/app.go)

    A shallow embedding of [App], the orchestrator of the dashboard: its
    set-up, the dispatch of [Collect] and [Display] on the active view, the
    propagation of the relative-statistics mode, the view transitions, the
    run loop with its three event sources, and the version gate.

    The packages [view], [wait_info], [display], [event], [lib], the
    collectors and [setup_instruments] are imported by app.go; each is given
    here as a module holding the part of its contract that app.go relies on.
    Calls that leave the package are also recorded, in order, in a ghost
    [trace] carried by the application state. *)

From Stdlib Require Import ZArith String Ascii List Bool Lia.
Import ListNotations.

Local Open Scope Z_scope.

(** ** Go integers and durations *)

(** Two's complement wrap-around of a 64-bit signed integer ([int],
    [int64], [time.Duration] on a 64-bit platform). *)
Definition wrap64 (z : Z) : Z := (z + 2 ^ 63) mod 2 ^ 64 - 2 ^ 63.

Module time.

(** [time.Duration] is an [int64] count of nanoseconds. *)
Definition Duration : Type := Z.

Definition Second : Duration := 1000000000.

Definition add (d e : Duration) : Duration := wrap64 (d + e).
Definition sub (d e : Duration) : Duration := wrap64 (d - e).
Definition mul (d e : Duration) : Duration := wrap64 (d * e).

End time.

(** ** The six collectors and the calls made on the collaborators *)

(** One name per collector field of [App]. *)
Inductive CollectorId : Type :=
  | Fsbi | Tlwsbt | Tiwsbt | Ewsgben | Essgben | Users.

Definition CollectorId_eqb (c d : CollectorId) : bool :=
  match c, d with
  | Fsbi, Fsbi | Tlwsbt, Tlwsbt | Tiwsbt, Tiwsbt
  | Ewsgben, Ewsgben | Essgben, Essgben | Users, Users => true
  | _, _ => false
  end.

(** A call made by app.go on one of its collaborators. *)
Inductive Call : Type :=
  | call_Collect (c : CollectorId)
  | call_SyncReferenceValues (c : CollectorId)
  | call_SetWantRelativeStats (c : CollectorId) (b : bool)
  | call_SetNow (c : CollectorId)
  | call_SetWantsLatency (b : bool)
  | disp_Setup
  | disp_Close
  | disp_ClearAndFlush
  | disp_Resize (width height : Z)
  | disp_SetHostname (h : string)
  | disp_SetMySQLVersion (v : string)
  | disp_SetVersion
  | disp_SetMyname
  | disp_SetWantRelativeStats (b : bool)
  | disp_SetUptime
  | disp_SetLast (c : CollectorId)
  | disp_DisplayHelp
  | disp_DisplayOpsOrLatency
  | disp_DisplayIO
  | disp_DisplayLocks
  | disp_DisplayUsers
  | disp_DisplayMutex
  | disp_DisplayStages
  | si_EnableMonitoring
  | si_RestoreConfiguration
  | dbh_Close.

(** The three calls [Cleanup] makes. *)
Definition is_Cleanup_call (k : Call) : bool :=
  match k with
  | disp_Close | si_RestoreConfiguration | dbh_Close => true
  | _ => false
  end.

(** ** Package view *)

Module view.

(** The seven view constants are the ones app.go switches on, in the order
    of its [case] lines. *)
Inductive View : Type :=
  | ViewLatency | ViewOps | ViewIO | ViewLocks | ViewUsers | ViewMutex
  | ViewStages.

Definition Get (v : View) : View := v.

(** Modelled from the spec: [View.SetNext] (package view is not under src/).
    "Cyclic successor ... defined over this fixed ordering (wrapping both
    directions)", the ordering being {Latency, Ops, IO, Locks, Users, Mutex,
    Stages}. *)
Definition SetNext (v : View) : View :=
  match v with
  | ViewLatency => ViewOps
  | ViewOps => ViewIO
  | ViewIO => ViewLocks
  | ViewLocks => ViewUsers
  | ViewUsers => ViewMutex
  | ViewMutex => ViewStages
  | ViewStages => ViewLatency
  end.

(** Modelled from the spec: [View.SetPrev] (package view is not under src/),
    the cyclic predecessor in the same ordering. *)
Definition SetPrev (v : View) : View :=
  match v with
  | ViewLatency => ViewStages
  | ViewOps => ViewLatency
  | ViewIO => ViewOps
  | ViewLocks => ViewIO
  | ViewUsers => ViewLocks
  | ViewMutex => ViewUsers
  | ViewStages => ViewMutex
  end.

(** Modelled from the spec: [View.SetByName] (package view is not under
    src/). "picks a state by label, defaulting to a fixed first state on
    invalid/empty input"; the labels are the names of the ordering. *)
Definition SetByName (name : string) (v : View) : View :=
  if (name =? "Latency")%string then ViewLatency
  else if (name =? "Ops")%string then ViewOps
  else if (name =? "IO")%string then ViewIO
  else if (name =? "Locks")%string then ViewLocks
  else if (name =? "Users")%string then ViewUsers
  else if (name =? "Mutex")%string then ViewMutex
  else if (name =? "Stages")%string then ViewStages
  else ViewLatency.

(** Position of a view in the fixed ordering. *)
Definition index (v : View) : Z :=
  match v with
  | ViewLatency => 0
  | ViewOps => 1
  | ViewIO => 2
  | ViewLocks => 3
  | ViewUsers => 4
  | ViewMutex => 5
  | ViewStages => 6
  end.

Definition all : list View :=
  [ViewLatency; ViewOps; ViewIO; ViewLocks; ViewUsers; ViewMutex; ViewStages].

Definition eqb (v w : View) : bool := index v =? index w.

End view.

(** ** Package wait_info *)

Module wait_info.

(** Modelled from the spec: [wait_info.WaitInfo] (package wait_info is not
    under src/). Section 4.1 gives the contract [SetInterval(d)],
    [Interval() -> d] and [MarkCollected]; the interval is "floor-clamped to
    a minimum of one second" and "SetInterval never produces a value below
    one second", so the setter stores the duration it receives or one
    second, whichever is the larger. [collections] counts the calls of
    [CollectedNow]. *)
Record WaitInfo : Type := {
  collect_interval : time.Duration;
  collections : nat
}.

Definition zero : WaitInfo := {| collect_interval := 0; collections := 0 |}.

Definition WaitInterval (wi : WaitInfo) : time.Duration := collect_interval wi.

Definition SetWaitInterval (d : time.Duration) (wi : WaitInfo) : WaitInfo :=
  {| collect_interval := Z.max time.Second d;
     collections := collections wi |}.

Definition CollectedNow (wi : WaitInfo) : WaitInfo :=
  {| collect_interval := collect_interval wi;
     collections := S (collections wi) |}.

End wait_info.

(** ** The collector contract *)

Module ps_table.

(** Modelled from the spec: the collector contract of section 4.3 (the
    collector packages are not under src/). A collector is opaque to app.go;
    the model keeps the relative-statistics flag it was last given, the
    latency flag (used by the table I/O collector only) and how many times
    [Collect], [SyncReferenceValues] and [SetNow] were called on it. *)
Record Tabler : Type := {
  want_relative_stats : bool;
  wants_latency : bool;
  collected : nat;
  synced : nat;
  now_set : nat
}.

(** The zero value of a collector, also the value [new(Object)] gives. *)
Definition new : Tabler :=
  {| want_relative_stats := false; wants_latency := false;
     collected := 0; synced := 0; now_set := 0 |}.

Definition Collect (t : Tabler) : Tabler :=
  {| want_relative_stats := want_relative_stats t;
     wants_latency := wants_latency t;
     collected := S (collected t); synced := synced t;
     now_set := now_set t |}.

Definition SyncReferenceValues (t : Tabler) : Tabler :=
  {| want_relative_stats := want_relative_stats t;
     wants_latency := wants_latency t;
     collected := collected t; synced := S (synced t);
     now_set := now_set t |}.

Definition SetWantRelativeStats (b : bool) (t : Tabler) : Tabler :=
  {| want_relative_stats := b;
     wants_latency := wants_latency t;
     collected := collected t; synced := synced t;
     now_set := now_set t |}.

Definition SetNow (t : Tabler) : Tabler :=
  {| want_relative_stats := want_relative_stats t;
     wants_latency := wants_latency t;
     collected := collected t; synced := synced t;
     now_set := S (now_set t) |}.

Definition SetWantsLatency (b : bool) (t : Tabler) : Tabler :=
  {| want_relative_stats := want_relative_stats t;
     wants_latency := b;
     collected := collected t; synced := synced t;
     now_set := now_set t |}.

End ps_table.

(** ** Package display *)

Module display.

(** The two implementations [Setup] chooses from. *)
Inductive Impl : Type := StdoutDisplay | ScreenDisplay.

(** Modelled from the spec: the renderer (package display is not under
    src/). The model keeps which implementation it is and the
    relative-statistics flag it was last given; every other call on it shows
    in the trace only. *)
Record Display : Type := {
  impl : Impl;
  want_relative_stats : bool
}.

Definition new (i : Impl) : Display :=
  {| impl := i; want_relative_stats := false |}.

Definition SetWantRelativeStats (b : bool) (d : Display) : Display :=
  {| impl := impl d; want_relative_stats := b |}.

End display.

(** ** Package event *)

Module event.

(** The event types [Run] switches on. *)
Inductive EventType : Type :=
  | EventFinished
  | EventViewNext
  | EventViewPrev
  | EventDecreasePollTime
  | EventIncreasePollTime
  | EventHelp
  | EventToggleWantRelative
  | EventResetStatistics
  | EventResizeScreen
  | EventError.

Record Event : Type := {
  Type_ : EventType;
  Width : Z;
  Height : Z
}.

Definition of_type (t : EventType) : Event :=
  {| Type_ := t; Width := 0; Height := 0 |}.

End event.

(** ** Package lib and the database *)

Module lib.

(** A Go [error] value. [QueryError] is an error handed back by the
    database layer; [VersionError v] stands for
    [errors.New(lib.MyName() + " does not work with MySQL version " + v)]. *)
Inductive error : Type :=
  | QueryError (msg : string)
  | VersionError (mysql_version : string).

(** The database behind the connection handle, as app.go queries it through
    package lib: the value of a global variable (an optional error and the
    value) and whether a table can be read. *)
Record DB : Type := {
  SelectGlobalVariableByVariableName : string -> option error * string;
  CheckTableAccess : string -> option error
}.

End lib.

(** ** Package setup_instruments *)

Module setup_instruments.

(** Modelled from the spec: the instrumentation toggler (package
    setup_instruments is not under src/): "EnableMonitoring() at Setup,
    RestoreConfiguration() at Cleanup". The model keeps whether monitoring
    is switched on. *)
Record SetupInstruments : Type := { monitoring : bool }.

Definition NewSetupInstruments : SetupInstruments := {| monitoring := false |}.
Definition EnableMonitoring (s : SetupInstruments) : SetupInstruments :=
  {| monitoring := true |}.
Definition RestoreConfiguration (s : SetupInstruments) : SetupInstruments :=
  {| monitoring := false |}.

End setup_instruments.

(** ** Package regexp (the part the version pattern uses) *)

Module regexp.

(** Syntax of the regular expressions the version pattern is built from:
    the start-of-text assertion, a literal character (an escaped dot
    included), a character class, concatenation and alternation. A group in
    parentheses is its content. *)
Inductive Regexp : Type :=
  | BeginText
  | Literal (c : ascii)
  | CharClass (cs : list ascii)
  | Concat (r1 r2 : Regexp)
  | Alternate (r1 r2 : Regexp).

(** [ends r s i]: the positions at which a match of [r] that starts at
    position [i] of the text [s] can end. *)
Fixpoint ends (r : Regexp) (s : string) (i : nat) : list nat :=
  match r with
  | BeginText => if (i =? 0)%nat then [i] else []
  | Literal c =>
      match String.get i s with
      | Some d => if Ascii.eqb c d then [S i] else []
      | None => []
      end
  | CharClass cs =>
      match String.get i s with
      | Some d => if existsb (Ascii.eqb d) cs then [S i] else []
      | None => []
      end
  | Concat r1 r2 => flat_map (ends r2 s) (ends r1 s i)
  | Alternate r1 r2 => ends r1 s i ++ ends r2 s i
  end.

Definition matches_at (r : Regexp) (s : string) (i : nat) : bool :=
  match ends r s i with [] => false | _ :: _ => true end.

(** [MatchString] reports whether the text contains a match, starting at any
    position. *)
Definition MatchString (r : Regexp) (s : string) : bool :=
  existsb (matches_at r s) (seq 0 (S (String.length s))).

End regexp.

(** * Package app *)

(** [re_valid_version = regexp.MustCompile(`^(5\.[67]\.|10\.[01])`)] *)
Definition re_valid_version : regexp.Regexp :=
  regexp.Concat regexp.BeginText
    (regexp.Alternate
       (regexp.Concat (regexp.Literal "5")
          (regexp.Concat (regexp.Literal ".")
             (regexp.Concat (regexp.CharClass ["6"; "7"]%char)
                (regexp.Literal "."))))
       (regexp.Concat (regexp.Literal "1")
          (regexp.Concat (regexp.Literal "0")
             (regexp.Concat (regexp.Literal ".")
                (regexp.CharClass ["0"; "1"]%char))))).

(** The state of the application. The fields are those of the Go struct,
    without the channels ([done], [sigChan]), the unused [screen] and the
    unused embedded [WaitInfo]; [dbh] is [None] for a nil handle. [trace] is
    ghost state: the calls made on the collaborators so far, oldest first. *)
Record App : Type := {
  count : Z;
  display : display.Display;
  wi : wait_info.WaitInfo;
  finished : bool;
  limit : Z;
  stdout : bool;
  dbh : option lib.DB;
  help : bool;
  hostname : string;
  fsbi : ps_table.Tabler;
  tiwsbt : ps_table.Tabler;
  tlwsbt : ps_table.Tabler;
  ewsgben : ps_table.Tabler;
  essgben : ps_table.Tabler;
  users : ps_table.Tabler;
  view : view.View;
  mysql_version : string;
  want_relative_stats : bool;
  setup_instruments : setup_instruments.SetupInstruments;
  trace : list Call
}.

(** The receiver [Setup] is called on: the zero value of [App]. In Go the
    interface fields of the zero value ([display], [fsbi], [tlwsbt],
    [ewsgben], [essgben]) are nil, and [Setup] assigns each before its
    first use; the values they have here stand for nil and are never
    called on. *)
Definition App_zero : App :=
  {| count := 0; display := display.new display.ScreenDisplay;
     wi := wait_info.zero; finished := false; limit := 0; stdout := false;
     dbh := None; help := false; hostname := ""; fsbi := ps_table.new;
     tiwsbt := ps_table.new; tlwsbt := ps_table.new;
     ewsgben := ps_table.new; essgben := ps_table.new;
     users := ps_table.new; view := view.ViewLatency; mysql_version := "";
     want_relative_stats := false;
     setup_instruments := setup_instruments.NewSetupInstruments;
     trace := [] |}.

(** *** Field assignments *)

Definition set_count (x : Z) (a : App) : App :=
  {| count := x; display := display a; wi := wi a; finished := finished a;
     limit := limit a; stdout := stdout a; dbh := dbh a; help := help a;
     hostname := hostname a; fsbi := fsbi a; tiwsbt := tiwsbt a;
     tlwsbt := tlwsbt a; ewsgben := ewsgben a; essgben := essgben a;
     users := users a; view := view a; mysql_version := mysql_version a;
     want_relative_stats := want_relative_stats a;
     setup_instruments := setup_instruments a; trace := trace a |}.

Definition set_display (x : display.Display) (a : App) : App :=
  {| count := count a; display := x; wi := wi a; finished := finished a;
     limit := limit a; stdout := stdout a; dbh := dbh a; help := help a;
     hostname := hostname a; fsbi := fsbi a; tiwsbt := tiwsbt a;
     tlwsbt := tlwsbt a; ewsgben := ewsgben a; essgben := essgben a;
     users := users a; view := view a; mysql_version := mysql_version a;
     want_relative_stats := want_relative_stats a;
     setup_instruments := setup_instruments a; trace := trace a |}.

Definition set_wi (x : wait_info.WaitInfo) (a : App) : App :=
  {| count := count a; display := display a; wi := x; finished := finished a;
     limit := limit a; stdout := stdout a; dbh := dbh a; help := help a;
     hostname := hostname a; fsbi := fsbi a; tiwsbt := tiwsbt a;
     tlwsbt := tlwsbt a; ewsgben := ewsgben a; essgben := essgben a;
     users := users a; view := view a; mysql_version := mysql_version a;
     want_relative_stats := want_relative_stats a;
     setup_instruments := setup_instruments a; trace := trace a |}.

Definition set_finished (x : bool) (a : App) : App :=
  {| count := count a; display := display a; wi := wi a; finished := x;
     limit := limit a; stdout := stdout a; dbh := dbh a; help := help a;
     hostname := hostname a; fsbi := fsbi a; tiwsbt := tiwsbt a;
     tlwsbt := tlwsbt a; ewsgben := ewsgben a; essgben := essgben a;
     users := users a; view := view a; mysql_version := mysql_version a;
     want_relative_stats := want_relative_stats a;
     setup_instruments := setup_instruments a; trace := trace a |}.

Definition set_limit (x : Z) (a : App) : App :=
  {| count := count a; display := display a; wi := wi a;
     finished := finished a; limit := x; stdout := stdout a; dbh := dbh a;
     help := help a; hostname := hostname a; fsbi := fsbi a;
     tiwsbt := tiwsbt a; tlwsbt := tlwsbt a; ewsgben := ewsgben a;
     essgben := essgben a; users := users a; view := view a;
     mysql_version := mysql_version a;
     want_relative_stats := want_relative_stats a;
     setup_instruments := setup_instruments a; trace := trace a |}.

Definition set_stdout (x : bool) (a : App) : App :=
  {| count := count a; display := display a; wi := wi a;
     finished := finished a; limit := limit a; stdout := x; dbh := dbh a;
     help := help a; hostname := hostname a; fsbi := fsbi a;
     tiwsbt := tiwsbt a; tlwsbt := tlwsbt a; ewsgben := ewsgben a;
     essgben := essgben a; users := users a; view := view a;
     mysql_version := mysql_version a;
     want_relative_stats := want_relative_stats a;
     setup_instruments := setup_instruments a; trace := trace a |}.

Definition set_dbh (x : option lib.DB) (a : App) : App :=
  {| count := count a; display := display a; wi := wi a;
     finished := finished a; limit := limit a; stdout := stdout a; dbh := x;
     help := help a; hostname := hostname a; fsbi := fsbi a;
     tiwsbt := tiwsbt a; tlwsbt := tlwsbt a; ewsgben := ewsgben a;
     essgben := essgben a; users := users a; view := view a;
     mysql_version := mysql_version a;
     want_relative_stats := want_relative_stats a;
     setup_instruments := setup_instruments a; trace := trace a |}.

Definition set_help (x : bool) (a : App) : App :=
  {| count := count a; display := display a; wi := wi a;
     finished := finished a; limit := limit a; stdout := stdout a;
     dbh := dbh a; help := x; hostname := hostname a; fsbi := fsbi a;
     tiwsbt := tiwsbt a; tlwsbt := tlwsbt a; ewsgben := ewsgben a;
     essgben := essgben a; users := users a; view := view a;
     mysql_version := mysql_version a;
     want_relative_stats := want_relative_stats a;
     setup_instruments := setup_instruments a; trace := trace a |}.

Definition set_hostname (x : string) (a : App) : App :=
  {| count := count a; display := display a; wi := wi a;
     finished := finished a; limit := limit a; stdout := stdout a;
     dbh := dbh a; help := help a; hostname := x; fsbi := fsbi a;
     tiwsbt := tiwsbt a; tlwsbt := tlwsbt a; ewsgben := ewsgben a;
     essgben := essgben a; users := users a; view := view a;
     mysql_version := mysql_version a;
     want_relative_stats := want_relative_stats a;
     setup_instruments := setup_instruments a; trace := trace a |}.

Definition set_fsbi (x : ps_table.Tabler) (a : App) : App :=
  {| count := count a; display := display a; wi := wi a;
     finished := finished a; limit := limit a; stdout := stdout a;
     dbh := dbh a; help := help a; hostname := hostname a; fsbi := x;
     tiwsbt := tiwsbt a; tlwsbt := tlwsbt a; ewsgben := ewsgben a;
     essgben := essgben a; users := users a; view := view a;
     mysql_version := mysql_version a;
     want_relative_stats := want_relative_stats a;
     setup_instruments := setup_instruments a; trace := trace a |}.

Definition set_tiwsbt (x : ps_table.Tabler) (a : App) : App :=
  {| count := count a; display := display a; wi := wi a;
     finished := finished a; limit := limit a; stdout := stdout a;
     dbh := dbh a; help := help a; hostname := hostname a; fsbi := fsbi a;
     tiwsbt := x; tlwsbt := tlwsbt a; ewsgben := ewsgben a;
     essgben := essgben a; users := users a; view := view a;
     mysql_version := mysql_version a;
     want_relative_stats := want_relative_stats a;
     setup_instruments := setup_instruments a; trace := trace a |}.

Definition set_tlwsbt (x : ps_table.Tabler) (a : App) : App :=
  {| count := count a; display := display a; wi := wi a;
     finished := finished a; limit := limit a; stdout := stdout a;
     dbh := dbh a; help := help a; hostname := hostname a; fsbi := fsbi a;
     tiwsbt := tiwsbt a; tlwsbt := x; ewsgben := ewsgben a;
     essgben := essgben a; users := users a; view := view a;
     mysql_version := mysql_version a;
     want_relative_stats := want_relative_stats a;
     setup_instruments := setup_instruments a; trace := trace a |}.

Definition set_ewsgben (x : ps_table.Tabler) (a : App) : App :=
  {| count := count a; display := display a; wi := wi a;
     finished := finished a; limit := limit a; stdout := stdout a;
     dbh := dbh a; help := help a; hostname := hostname a; fsbi := fsbi a;
     tiwsbt := tiwsbt a; tlwsbt := tlwsbt a; ewsgben := x;
     essgben := essgben a; users := users a; view := view a;
     mysql_version := mysql_version a;
     want_relative_stats := want_relative_stats a;
     setup_instruments := setup_instruments a; trace := trace a |}.

Definition set_essgben (x : ps_table.Tabler) (a : App) : App :=
  {| count := count a; display := display a; wi := wi a;
     finished := finished a; limit := limit a; stdout := stdout a;
     dbh := dbh a; help := help a; hostname := hostname a; fsbi := fsbi a;
     tiwsbt := tiwsbt a; tlwsbt := tlwsbt a; ewsgben := ewsgben a;
     essgben := x; users := users a; view := view a;
     mysql_version := mysql_version a;
     want_relative_stats := want_relative_stats a;
     setup_instruments := setup_instruments a; trace := trace a |}.

Definition set_users (x : ps_table.Tabler) (a : App) : App :=
  {| count := count a; display := display a; wi := wi a;
     finished := finished a; limit := limit a; stdout := stdout a;
     dbh := dbh a; help := help a; hostname := hostname a; fsbi := fsbi a;
     tiwsbt := tiwsbt a; tlwsbt := tlwsbt a; ewsgben := ewsgben a;
     essgben := essgben a; users := x; view := view a;
     mysql_version := mysql_version a;
     want_relative_stats := want_relative_stats a;
     setup_instruments := setup_instruments a; trace := trace a |}.

Definition set_view (x : view.View) (a : App) : App :=
  {| count := count a; display := display a; wi := wi a;
     finished := finished a; limit := limit a; stdout := stdout a;
     dbh := dbh a; help := help a; hostname := hostname a; fsbi := fsbi a;
     tiwsbt := tiwsbt a; tlwsbt := tlwsbt a; ewsgben := ewsgben a;
     essgben := essgben a; users := users a; view := x;
     mysql_version := mysql_version a;
     want_relative_stats := want_relative_stats a;
     setup_instruments := setup_instruments a; trace := trace a |}.

Definition set_mysql_version (x : string) (a : App) : App :=
  {| count := count a; display := display a; wi := wi a;
     finished := finished a; limit := limit a; stdout := stdout a;
     dbh := dbh a; help := help a; hostname := hostname a; fsbi := fsbi a;
     tiwsbt := tiwsbt a; tlwsbt := tlwsbt a; ewsgben := ewsgben a;
     essgben := essgben a; users := users a; view := view a;
     mysql_version := x; want_relative_stats := want_relative_stats a;
     setup_instruments := setup_instruments a; trace := trace a |}.

Definition set_want_relative_stats (x : bool) (a : App) : App :=
  {| count := count a; display := display a; wi := wi a;
     finished := finished a; limit := limit a; stdout := stdout a;
     dbh := dbh a; help := help a; hostname := hostname a; fsbi := fsbi a;
     tiwsbt := tiwsbt a; tlwsbt := tlwsbt a; ewsgben := ewsgben a;
     essgben := essgben a; users := users a; view := view a;
     mysql_version := mysql_version a; want_relative_stats := x;
     setup_instruments := setup_instruments a; trace := trace a |}.

Definition set_setup_instruments (x : setup_instruments.SetupInstruments)
    (a : App) : App :=
  {| count := count a; display := display a; wi := wi a;
     finished := finished a; limit := limit a; stdout := stdout a;
     dbh := dbh a; help := help a; hostname := hostname a; fsbi := fsbi a;
     tiwsbt := tiwsbt a; tlwsbt := tlwsbt a; ewsgben := ewsgben a;
     essgben := essgben a; users := users a; view := view a;
     mysql_version := mysql_version a;
     want_relative_stats := want_relative_stats a; setup_instruments := x;
     trace := trace a |}.

Definition set_trace (x : list Call) (a : App) : App :=
  {| count := count a; display := display a; wi := wi a;
     finished := finished a; limit := limit a; stdout := stdout a;
     dbh := dbh a; help := help a; hostname := hostname a; fsbi := fsbi a;
     tiwsbt := tiwsbt a; tlwsbt := tlwsbt a; ewsgben := ewsgben a;
     essgben := essgben a; users := users a; view := view a;
     mysql_version := mysql_version a;
     want_relative_stats := want_relative_stats a;
     setup_instruments := setup_instruments a; trace := x |}.

(** *** Helpers: sequencing, the trace, calls on a collector *)

(** [a |> f |> g]: the statements [f] then [g], run from the state [a]. *)
Notation "a |> f" := (f a) (at level 45, left associativity, only parsing).

Definition emit (k : Call) (a : App) : App := set_trace (trace a ++ [k]) a.

Definition collector (c : CollectorId) (a : App) : ps_table.Tabler :=
  match c with
  | Fsbi => fsbi a
  | Tlwsbt => tlwsbt a
  | Tiwsbt => tiwsbt a
  | Ewsgben => ewsgben a
  | Essgben => essgben a
  | Users => users a
  end.

Definition on_collector (c : CollectorId)
    (f : ps_table.Tabler -> ps_table.Tabler) (a : App) : App :=
  match c with
  | Fsbi => set_fsbi (f (fsbi a)) a
  | Tlwsbt => set_tlwsbt (f (tlwsbt a)) a
  | Tiwsbt => set_tiwsbt (f (tiwsbt a)) a
  | Ewsgben => set_ewsgben (f (ewsgben a)) a
  | Essgben => set_essgben (f (essgben a)) a
  | Users => set_users (f (users a)) a
  end.

(** [app.<c>.Collect(app.dbh)] *)
Definition do_Collect (c : CollectorId) (a : App) : App :=
  a |> on_collector c ps_table.Collect |> emit (call_Collect c).

(** [app.<c>.SyncReferenceValues()] *)
Definition do_SyncReferenceValues (c : CollectorId) (a : App) : App :=
  a |> on_collector c ps_table.SyncReferenceValues
    |> emit (call_SyncReferenceValues c).

(** [app.<c>.SetWantRelativeStats(b)] *)
Definition do_SetWantRelativeStats (c : CollectorId) (b : bool) (a : App)
    : App :=
  a |> on_collector c (ps_table.SetWantRelativeStats b)
    |> emit (call_SetWantRelativeStats c b).

(** [app.<c>.SetWantRelativeStats(app.want_relative_stats)] *)
Definition do_SetWantRelativeStats_field (c : CollectorId) (a : App) : App :=
  do_SetWantRelativeStats c (want_relative_stats a) a.

(** [app.<c>.SetNow()] *)
Definition do_SetNow (c : CollectorId) (a : App) : App :=
  a |> on_collector c ps_table.SetNow |> emit (call_SetNow c).

(** [app.tiwsbt.SetWantsLatency(b)] *)
Definition do_SetWantsLatency (b : bool) (a : App) : App :=
  a |> set_tiwsbt (ps_table.SetWantsLatency b (tiwsbt a))
    |> emit (call_SetWantsLatency b).

(** [app.display.SetWantRelativeStats(app.want_relative_stats)] *)
Definition do_display_SetWantRelativeStats (a : App) : App :=
  a |> set_display
         (display.SetWantRelativeStats (want_relative_stats a) (display a))
    |> emit (disp_SetWantRelativeStats (want_relative_stats a)).

(** *** The methods of [App] *)

Definition Finished (a : App) : bool := finished a.

Definition updateLast (a : App) : App :=
  match view.Get (view a) with
  | view.ViewLatency | view.ViewOps => emit (disp_SetLast Tiwsbt) a
  | view.ViewIO => emit (disp_SetLast Fsbi) a
  | view.ViewLocks => emit (disp_SetLast Tlwsbt) a
  | view.ViewUsers => emit (disp_SetLast Users) a
  | view.ViewMutex => emit (disp_SetLast Ewsgben) a
  | view.ViewStages => emit (disp_SetLast Essgben) a
  end.

Definition SyncReferenceValues (a : App) : App :=
  a |> do_SyncReferenceValues Fsbi
    |> do_SyncReferenceValues Tlwsbt
    |> do_SyncReferenceValues Tiwsbt
    |> do_SyncReferenceValues Essgben
    |> do_SyncReferenceValues Ewsgben
    |> updateLast.

Definition ResetDBStatistics (a : App) : App :=
  a |> do_Collect Fsbi
    |> do_Collect Tlwsbt
    |> do_Collect Tiwsbt
    |> do_Collect Essgben
    |> do_Collect Ewsgben
    |> SyncReferenceValues.

(** [app.wi.CollectedNow()] *)
Definition do_CollectedNow (a : App) : App :=
  set_wi (wait_info.CollectedNow (wi a)) a.

Definition Collect (a : App) : App :=
  (match view.Get (view a) with
   | view.ViewLatency | view.ViewOps => do_Collect Tiwsbt a
   | view.ViewIO => do_Collect Fsbi a
   | view.ViewLocks => do_Collect Tlwsbt a
   | view.ViewUsers => do_Collect Users a
   | view.ViewMutex => do_Collect Ewsgben a
   | view.ViewStages => do_Collect Essgben a
   end)
  |> updateLast |> do_CollectedNow.

Definition SetHelp (newHelp : bool) (a : App) : App :=
  a |> set_help newHelp |> emit disp_ClearAndFlush.

Definition SetMySQLVersion (v : string) (a : App) : App :=
  set_mysql_version v a.

Definition SetHostname (h : string) (a : App) : App := set_hostname h a.

Definition Help (a : App) : bool := help a.

Definition Display (a : App) : App :=
  if help a then emit disp_DisplayHelp a
  else
    let a := emit disp_SetUptime a in
    match view.Get (view a) with
    | view.ViewLatency | view.ViewOps => emit disp_DisplayOpsOrLatency a
    | view.ViewIO => emit disp_DisplayIO a
    | view.ViewLocks => emit disp_DisplayLocks a
    | view.ViewUsers => emit disp_DisplayUsers a
    | view.ViewMutex => emit disp_DisplayMutex a
    | view.ViewStages => emit disp_DisplayStages a
    end.

Definition fix_latency_setting (a : App) : App :=
  let a :=
    if view.eqb (view.Get (view a)) view.ViewLatency
    then do_SetWantsLatency true a else a in
  if view.eqb (view.Get (view a)) view.ViewOps
  then do_SetWantsLatency false a else a.

Definition DisplayPrevious (a : App) : App :=
  a |> set_view (view.SetPrev (view a))
    |> fix_latency_setting
    |> emit disp_ClearAndFlush.

Definition DisplayNext (a : App) : App :=
  a |> set_view (view.SetNext (view a))
    |> fix_latency_setting
    |> emit disp_ClearAndFlush.

Definition WantRelativeStats (a : App) : bool := want_relative_stats a.

Definition SetWantRelativeStats (b : bool) (a : App) : App :=
  a |> set_want_relative_stats b
    |> do_SetWantRelativeStats Fsbi b
    |> do_SetWantRelativeStats_field Tlwsbt
    |> do_SetWantRelativeStats_field Tiwsbt
    |> do_SetWantRelativeStats_field Ewsgben
    |> do_SetWantRelativeStats_field Essgben
    |> do_display_SetWantRelativeStats.

Definition Cleanup (a : App) : App :=
  let a := emit disp_Close a in
  match dbh a with
  | Some _ =>
      a |> set_setup_instruments
             (setup_instruments.RestoreConfiguration (setup_instruments a))
        |> emit si_RestoreConfiguration
        |> emit dbh_Close
  | None => a
  end.

(** *** The version gate *)

(** The five tables [validate_mysql_version] checks, in its order. *)
Definition tables : list string :=
  ["performance_schema.events_stages_summary_global_by_event_name";
   "performance_schema.events_waits_summary_global_by_event_name";
   "performance_schema.file_summary_by_instance";
   "performance_schema.table_io_waits_summary_by_table";
   "performance_schema.table_lock_waits_summary_by_table"]%string.

(** The [for i := range tables] loop: the first error ends it. *)
Fixpoint check_tables (db : lib.DB) (ts : list string) : option lib.error :=
  match ts with
  | [] => None
  | t :: rest =>
      match lib.CheckTableAccess db t with
      | None => check_tables db rest
      | Some err => Some err
      end
  end.

(** [validate_mysql_version], on the handle [app.dbh] that [Setup] has just
    stored; [None] is the nil error. *)
Definition validate_mysql_version (db : lib.DB) : option lib.error :=
  let (err, mysql_version) :=
    lib.SelectGlobalVariableByVariableName db "VERSION" in
  match err with
  | Some e => Some e
  | None =>
      if negb (regexp.MatchString re_valid_version mysql_version)
      then Some (lib.VersionError mysql_version)
      else check_tables db tables
  end.

(** *** Setup *)

(** How a call that may reach [log.Fatal] ends: it returns, or the process
    is gone ([log.Fatal] prints and calls [os.Exit(1)], after which no
    statement of the program runs, deferred ones included). *)
Inductive Exec : Type :=
  | Continue (a : App)
  | Exit1 (a : App).

(** [hostname[0:index]] for the first dot, the whole name without one. *)
Fixpoint short_hostname (h : string) : string :=
  match h with
  | EmptyString => EmptyString
  | String c rest =>
      if Ascii.eqb c "." then EmptyString else String c (short_hostname rest)
  end.

(** [Setup], for a non-nil handle [dbh_]. *)
Definition Setup (dbh_ : lib.DB) (interval count_ : Z) (stdout_ : bool)
    (limit_ : Z) (default_view : string) (app : App) : Exec :=
  let app :=
    app |> set_count count_
        |> set_dbh (Some dbh_)
        |> set_finished false
        |> set_limit limit_
        |> set_stdout stdout_ in
  let app :=
    app |> set_display
             (display.new (if stdout_ then display.StdoutDisplay
                           else display.ScreenDisplay))
        |> emit disp_Setup
        |> SetHelp false in
  let app := set_view (view.SetByName default_view (view app)) app in
  match validate_mysql_version dbh_ with
  | Some err => Exit1 app
  | None =>
      let app :=
        app |> set_setup_instruments
                 (setup_instruments.EnableMonitoring
                    setup_instruments.NewSetupInstruments)
            |> emit si_EnableMonitoring in
      let app :=
        set_wi (wait_info.SetWaitInterval (time.mul time.Second interval)
                  (wi app)) app in
      let app :=
        app |> set_fsbi ps_table.new
            |> set_tlwsbt ps_table.new
            |> set_ewsgben ps_table.new
            |> set_essgben ps_table.new in
      let app :=
        app |> set_want_relative_stats true
            |> do_SetWantRelativeStats_field Fsbi |> do_SetNow Fsbi
            |> do_SetWantRelativeStats_field Tlwsbt |> do_SetNow Tlwsbt
            |> do_SetWantRelativeStats_field Tiwsbt |> do_SetNow Tiwsbt
            |> do_SetWantRelativeStats_field Users |> do_SetNow Users
            |> do_SetWantRelativeStats_field Essgben |> do_SetNow Essgben
            |> do_SetWantRelativeStats_field Ewsgben |> do_SetNow Ewsgben in
      let app := app |> ResetDBStatistics |> do_SetWantsLatency true in
      let hostname_ :=
        short_hostname
          (snd (lib.SelectGlobalVariableByVariableName dbh_ "HOSTNAME")) in
      let mysql_version_ :=
        snd (lib.SelectGlobalVariableByVariableName dbh_ "VERSION") in
      Continue
        (app |> emit (disp_SetHostname hostname_)
             |> emit (disp_SetMySQLVersion mysql_version_)
             |> emit disp_SetVersion
             |> emit disp_SetMyname
             |> do_display_SetWantRelativeStats)
  end.

(** *** The run loop *)

(** What one [select] of the loop receives: a termination signal, a tick of
    the wait timer, or an input event of the display. *)
Inductive Ready : Type :=
  | ready_signal
  | ready_tick
  | ready_event (input_event : event.Event).

(** The body of the [select] statement for the case that was ready. *)
Definition serve (r : Ready) (a : App) : Exec :=
  match r with
  | ready_signal => Continue (set_finished true a)
  | ready_tick => Continue (a |> Collect |> Display)
  | ready_event input_event =>
      match event.Type_ input_event with
      | event.EventFinished => Continue (set_finished true a)
      | event.EventViewNext => Continue (a |> DisplayNext |> Display)
      | event.EventViewPrev => Continue (a |> DisplayPrevious |> Display)
      | event.EventDecreasePollTime =>
          if time.Second <? wait_info.WaitInterval (wi a)
          then Continue
                 (set_wi
                    (wait_info.SetWaitInterval
                       (time.sub (wait_info.WaitInterval (wi a)) time.Second)
                       (wi a)) a)
          else Continue a
      | event.EventIncreasePollTime =>
          Continue
            (set_wi
               (wait_info.SetWaitInterval
                  (time.add (wait_info.WaitInterval (wi a)) time.Second)
                  (wi a)) a)
      | event.EventHelp => Continue (SetHelp (negb (Help a)) a)
      | event.EventToggleWantRelative =>
          Continue
            (a |> SetWantRelativeStats (negb (WantRelativeStats a))
               |> Display)
      | event.EventResetStatistics =>
          Continue (a |> ResetDBStatistics |> Display)
      | event.EventResizeScreen =>
          Continue
            (a |> emit (disp_Resize (event.Width input_event)
                          (event.Height input_event))
               |> Display)
      | event.EventError => Exit1 a
      end
  end.

(** The hook after the [select]: the run budget of the stdout mode. *)
Definition budget_hook (a : App) : App :=
  if stdout a && (0 <? count a) then
    let a := set_count (count a - 1) a in
    if count a =? 0 then set_finished true a else a
  else a.

(** How far [Run] gets on a given supply of ready cases: it returns (with
    the cases it did not consume), it waits in [select] with nothing ready,
    or the process exits inside the loop. *)
Inductive RunResult : Type :=
  | Returned (a : App) (rest : list Ready)
  | Blocked (a : App)
  | Aborted (a : App) (rest : list Ready).

(** [for !app.Finished() { select {...}; hook }], the [select]s being
    answered by [sched] in order. *)
Fixpoint Run (sched : list Ready) (a : App) : RunResult :=
  if Finished a then Returned a sched
  else
    match sched with
    | [] => Blocked a
    | r :: rest =>
        match serve r a with
        | Exit1 a' => Aborted a' rest
        | Continue a' => Run rest (budget_hook a')
        end
    end.

Definition state_of (r : RunResult) : App :=
  match r with
  | Returned a _ => a
  | Blocked a => a
  | Aborted a _ => a
  end.

(** *** The process *)

Inductive Process : Type :=
  | Exited0 (a : App)
  | Exited1 (a : App)
  | Waiting (a : App).

(** Modelled from the spec: the entry point of the program (package main is
    not under src/). "Orchestrator.Setup wires collectors and scheduler ->
    Run loop ... -> on signal: loop exits -> Cleanup releases resources";
    the orchestrator's state has "no independent lifecycle beyond Setup ->
    Run -> Cleanup". *)
Definition main (dbh_ : lib.DB) (interval count_ : Z) (stdout_ : bool)
    (limit_ : Z) (default_view : string) (sched : list Ready) : Process :=
  match Setup dbh_ interval count_ stdout_ limit_ default_view App_zero with
  | Exit1 a => Exited1 a
  | Continue a =>
      match Run sched a with
      | Returned a' _ => Exited0 (Cleanup a')
      | Blocked a' => Waiting a'
      | Aborted a' _ => Exited1 a'
      end
  end.

Definition final_state (p : Process) : App :=
  match p with Exited0 a | Exited1 a | Waiting a => a end.

(** *** Sample databases *)

(** A server that reports version [v], host name [h], and lets every table
    be read. *)
Definition server (v h : string) : lib.DB :=
  {| lib.SelectGlobalVariableByVariableName := fun name =>
       if (name =? "VERSION")%string then (None, v)
       else if (name =? "HOSTNAME")%string then (None, h)
       else (None, ""%string);
     lib.CheckTableAccess := fun _ => None |}.

Definition mysql57 : lib.DB := server "5.7.21-log" "db1.example.com".

(** The state an [Exec] carries. *)
Definition state_after (e : Exec) : App :=
  match e with Continue a => a | Exit1 a => a end.

(** * Definitions used to state the properties *)

(** The collector [Collect], [updateLast] and [Display] select for a view. *)
Definition backing (v : view.View) : CollectorId :=
  match v with
  | view.ViewLatency | view.ViewOps => Tiwsbt
  | view.ViewIO => Fsbi
  | view.ViewLocks => Tlwsbt
  | view.ViewUsers => Users
  | view.ViewMutex => Ewsgben
  | view.ViewStages => Essgben
  end.

(** The display routine of a view. *)
Definition display_call (v : view.View) : Call :=
  match v with
  | view.ViewLatency | view.ViewOps => disp_DisplayOpsOrLatency
  | view.ViewIO => disp_DisplayIO
  | view.ViewLocks => disp_DisplayLocks
  | view.ViewUsers => disp_DisplayUsers
  | view.ViewMutex => disp_DisplayMutex
  | view.ViewStages => disp_DisplayStages
  end.

(** The calls of one tick of the timer: [Collect] then [Display]. *)
Definition cycle_calls (v : view.View) : list Call :=
  [call_Collect (backing v); disp_SetLast (backing v); disp_SetUptime;
   display_call v].

(** The calls of [ResetDBStatistics] as the source makes them. *)
Definition reset_calls (v : view.View) : list Call :=
  [call_Collect Fsbi; call_Collect Tlwsbt; call_Collect Tiwsbt;
   call_Collect Essgben; call_Collect Ewsgben;
   call_SyncReferenceValues Fsbi; call_SyncReferenceValues Tlwsbt;
   call_SyncReferenceValues Tiwsbt; call_SyncReferenceValues Essgben;
   call_SyncReferenceValues Ewsgben; disp_SetLast (backing v)].

(** A view transition requested by the operator. *)
Inductive ViewOp : Type := op_Next | op_Prev.

Definition apply_op (a : App) (o : ViewOp) : App :=
  match o with
  | op_Next => DisplayNext a
  | op_Prev => DisplayPrevious a
  end.

Definition apply_ops (ops : list ViewOp) (a : App) : App :=
  fold_left apply_op ops a.

(** Net displacement of a sequence of transitions. *)
Fixpoint offset (ops : list ViewOp) : Z :=
  match ops with
  | [] => 0
  | op_Next :: rest => 1 + offset rest
  | op_Prev :: rest => offset rest - 1
  end.

(** The relative-statistics flag is the same in the application, the five
    performance_schema collectors and the display. *)
Definition relative_stats_agree (a : App) : Prop :=
  ps_table.want_relative_stats (fsbi a) = want_relative_stats a /\
  ps_table.want_relative_stats (tlwsbt a) = want_relative_stats a /\
  ps_table.want_relative_stats (tiwsbt a) = want_relative_stats a /\
  ps_table.want_relative_stats (ewsgben a) = want_relative_stats a /\
  ps_table.want_relative_stats (essgben a) = want_relative_stats a /\
  display.want_relative_stats (display a) = want_relative_stats a.

(** The state [Setup] leaves for a 5.7 server, the IO view, the stdout
    display and a budget of three. *)
Definition started : App :=
  state_after (Setup mysql57 1 3 true 0 "IO" App_zero).

(** The calls [Setup] makes before and after its [ResetDBStatistics]. *)
Definition setup_calls_before : list Call :=
  [disp_Setup; disp_ClearAndFlush; si_EnableMonitoring;
   call_SetWantRelativeStats Fsbi true; call_SetNow Fsbi;
   call_SetWantRelativeStats Tlwsbt true; call_SetNow Tlwsbt;
   call_SetWantRelativeStats Tiwsbt true; call_SetNow Tiwsbt;
   call_SetWantRelativeStats Users true; call_SetNow Users;
   call_SetWantRelativeStats Essgben true; call_SetNow Essgben;
   call_SetWantRelativeStats Ewsgben true; call_SetNow Ewsgben].

Definition setup_calls_after (db : lib.DB) : list Call :=
  [call_SetWantsLatency true;
   disp_SetHostname
     (short_hostname
        (snd (lib.SelectGlobalVariableByVariableName db "HOSTNAME")));
   disp_SetMySQLVersion
     (snd (lib.SelectGlobalVariableByVariableName db "VERSION"));
   disp_SetVersion; disp_SetMyname; disp_SetWantRelativeStats true].

(** The ready cases that can end the loop in the interactive mode. *)
Definition stops_loop (r : Ready) : bool :=
  match r with
  | ready_signal => true
  | ready_tick => false
  | ready_event e =>
      match event.Type_ e with
      | event.EventFinished | event.EventError => true
      | _ => false
      end
  end.

(** The ready case is a tick of the wait timer. *)
Definition is_tick (r : Ready) : bool :=
  match r with ready_tick => true | _ => false end.

(** The ready case is the fatal one. *)
Definition is_error (r : Ready) : bool :=
  match r with
  | ready_event e =>
      match event.Type_ e with event.EventError => true | _ => false end
  | _ => false
  end.

(** The largest whole number of seconds a [time.Duration] can hold. *)
Definition max_seconds : Z := 9223372036.

Definition decrease_poll : Ready :=
  ready_event (event.of_type event.EventDecreasePollTime).

Definition increase_poll : Ready :=
  ready_event (event.of_type event.EventIncreasePollTime).

(** The calls of [Cleanup] found in a trace, in order. *)
Definition cleanup_calls (l : list Call) : list Call :=
  filter is_Cleanup_call l.

(** The state [Setup] leaves for a 5.7 server, the Latency view, the screen
    display and a budget of three. *)
Definition interactive : App :=
  state_after (Setup mysql57 1 3 false 0 "" App_zero).

(** The state [Setup] leaves for a 5.7 server, the Latency view, the screen
    display and no budget. *)
Definition interactive_0 : App :=
  state_after (Setup mysql57 1 0 false 0 "" App_zero).

(** The version pattern read as a set of prefixes: "5.6.", "5.7.", "10.0"
    and "10.1". *)
Definition accepted_prefixes : list string :=
  ["5.6."; "5.7."; "10.0"; "10.1"]%string.

Definition has_accepted_prefix (v : string) : bool :=
  existsb (fun p => String.prefix p v) accepted_prefixes.

(** A server too old for the dashboard. *)
Definition mysql55 : lib.DB := server "5.5.50" "db1.example.com".

(** The state [Setup] leaves when it is given an interval of zero. *)
Definition zero_interval : App :=
  state_after (Setup mysql57 0 3 false 0 "" App_zero).
(** ** Further definitions *)

(** The table can be read: [lib.CheckTableAccess] gives the nil error. *)
Definition accessible (db : lib.DB) (t : string) : bool :=
  match lib.CheckTableAccess db t with None => true | Some _ => false end.

(** The string holds a dot. *)
Fixpoint has_dot (s : string) : bool :=
  match s with
  | EmptyString => false
  | String c rest => Ascii.eqb c "." || has_dot rest
  end.

(** How many times serving the ready case [r] in view [v] calls [Collect]
    on the collector [k]. *)
Definition collects_on (r : Ready) (v : view.View) (k : CollectorId) : nat :=
  match r with
  | ready_tick => if CollectorId_eqb k (backing v) then 1 else 0
  | ready_event e =>
      match event.Type_ e with
      | event.EventResetStatistics =>
          match k with Users => 0 | _ => 1 end
      | _ => 0
      end
  | ready_signal => 0
  end%nat.

(** The calls [Display] makes. *)
Definition display_calls (a : App) : list Call :=
  if help a then [disp_DisplayHelp]
  else [disp_SetUptime; display_call (view a)].

(** The calls [Cleanup] makes. *)
Definition Cleanup_trace (a : App) : list Call :=
  match dbh a with
  | Some _ => [disp_Close; si_RestoreConfiguration; dbh_Close]
  | None => [disp_Close]
  end.

(** The calls [fix_latency_setting] makes once the view is [v]. *)
Definition latency_calls (v : view.View) : list Call :=
  match v with
  | view.ViewLatency => [call_SetWantsLatency true]
  | view.ViewOps => [call_SetWantsLatency false]
  | _ => []
  end.

(** A database whose VERSION query fails. *)
Definition unreachable : lib.DB :=
  {| lib.SelectGlobalVariableByVariableName := fun _ =>
       (Some (lib.QueryError "connection refused"), ""%string);
     lib.CheckTableAccess := fun _ => None |}.

(** The state [Setup] leaves for a 5.7 server, the IO view, the stdout
    display and no budget. *)
Definition unbounded : App :=
  state_after (Setup mysql57 1 0 true 0 "IO" App_zero).

(** Position of an event type in the order of the [case] lines of [Run]. *)
Definition event_code (t : event.EventType) : nat :=
  match t with
  | event.EventFinished => 0
  | event.EventViewNext => 1
  | event.EventViewPrev => 2
  | event.EventDecreasePollTime => 3
  | event.EventIncreasePollTime => 4
  | event.EventHelp => 5
  | event.EventToggleWantRelative => 6
  | event.EventResetStatistics => 7
  | event.EventResizeScreen => 8
  | event.EventError => 9
  end.

(** The ready case is an input event of type [t]. *)
Definition is_event (t : event.EventType) (r : Ready) : bool :=
  match r with
  | ready_event e => Nat.eqb (event_code (event.Type_ e)) (event_code t)
  | _ => false
  end.

(** What the loop never writes: the mode, the row limit, the connection,
    the instrumentation state, the kind of display and the two name
    fields. *)
Definition configuration (a : App) :
    bool * Z * option lib.DB * setup_instruments.SetupInstruments
    * display.Impl * string * string :=
  (stdout a, limit a, dbh a, setup_instruments a,
   display.impl (display a), hostname a, mysql_version a).

(** The call draws on the display: the help page, the uptime or the routine
    of a view. *)
Definition is_draw_call (k : Call) : bool :=
  match k with
  | disp_DisplayHelp | disp_SetUptime | disp_DisplayOpsOrLatency
  | disp_DisplayIO | disp_DisplayLocks | disp_DisplayUsers
  | disp_DisplayMutex | disp_DisplayStages => true
  | _ => false
  end.

Definition draw_calls (l : list Call) : list Call := filter is_draw_call l.

(** The ready cases whose body ends with [app.Display()]. *)
Definition redraws (r : Ready) : bool :=
  match r with
  | ready_tick => true
  | ready_signal => false
  | ready_event e =>
      match event.Type_ e with
      | event.EventViewNext | event.EventViewPrev
      | event.EventToggleWantRelative | event.EventResetStatistics
      | event.EventResizeScreen => true
      | _ => false
      end
  end.

(** The calls [SetWantRelativeStats b] makes. *)
Definition relative_stats_calls (b : bool) : list Call :=
  [call_SetWantRelativeStats Fsbi b; call_SetWantRelativeStats Tlwsbt b;
   call_SetWantRelativeStats Tiwsbt b; call_SetWantRelativeStats Ewsgben b;
   call_SetWantRelativeStats Essgben b; disp_SetWantRelativeStats b].


(** ** Tactics *)

(** Case analysis on the application state, its view and its help flag:
    after it every method of [App] computes. *)
Ltac app_cases a :=
  destruct a as [? ? ? ? ? ? ? [] ? ? ? ? ? ? ? [] ? ? ? ?].

Ltac ready_cases r :=
  let t := fresh "t" in
  destruct r as [| |[t ? ?]]; [| |destruct t].

(** Case analysis on every comparison of a character of the text with a
    character of the pattern. *)
Ltac ascii_cases :=
  repeat match goal with
         | |- context [Ascii.eqb ?c ?d] =>
             first [is_var c | is_var d];
             destruct (Ascii.eqb_spec c d);
             [subst|]; cbn -[Ascii.eqb ascii_dec]
         end.

(** * Properties *)

(** ** View transitions *)

Lemma view_DisplayNext a : view (DisplayNext a) = view.SetNext (view a).
Proof. destruct a as [? ? ? ? ? ? ? ? ? ? ? ? ? ? ? [] ? ? ? ?]; reflexivity. Qed.

Lemma view_DisplayPrevious a :
  view (DisplayPrevious a) = view.SetPrev (view a).
Proof. destruct a as [? ? ? ? ? ? ? ? ? ? ? ? ? ? ? [] ? ? ? ?]; reflexivity. Qed.

Lemma index_SetNext v : view.index (view.SetNext v) = (view.index v + 1) mod 7.
Proof. destruct v; reflexivity. Qed.

Lemma index_SetPrev v : view.index (view.SetPrev v) = (view.index v - 1) mod 7.
Proof. destruct v; reflexivity. Qed.

Lemma index_range v : 0 <= view.index v < 7.
Proof. destruct v; simpl; lia. Qed.

Lemma index_inj v w : view.index v = view.index w -> v = w.
Proof. destruct v, w; simpl; intros H; try reflexivity; discriminate H. Qed.

Lemma view_apply_ops ops : forall a,
  view.index (view (apply_ops ops a)) = (view.index (view a) + offset ops) mod 7.
Proof.
  induction ops as [|o ops IH]; intros a; cbn [apply_ops fold_left].
  - cbn [offset]. rewrite Z.add_0_r, Z.mod_small; [reflexivity | apply index_range].
  - unfold apply_ops in IH. rewrite IH. destruct o; cbn [apply_op offset].
    + rewrite view_DisplayNext, index_SetNext.
      rewrite Zplus_mod_idemp_l. f_equal. lia.
    + rewrite view_DisplayPrevious, index_SetPrev.
      rewrite Zplus_mod_idemp_l. f_equal. lia.
Qed.

Lemma offset_repeat_Next n : offset (repeat op_Next n) = Z.of_nat n.
Proof. induction n as [|n IH]; [reflexivity|]. cbn [repeat offset]. lia. Qed.

Lemma offset_repeat_Prev n : offset (repeat op_Prev n) = - Z.of_nat n.
Proof. induction n as [|n IH]; [reflexivity|]. cbn [repeat offset]. lia. Qed.

(** C5. Whatever the initial view and the sequence of [DisplayNext] and
    [DisplayPrevious] calls, the active view sits at the initial position
    plus the net number of steps, modulo seven, in the ordering Latency,
    Ops, IO, Locks, Users, Mutex, Stages: [N] calls of [DisplayNext] land at
    offset [N], [N] calls of [DisplayPrevious] at offset [-N]; the
    predecessor of the first view is the last, the successor of the last is
    the first; and the state always holds exactly one of the seven views. *)
Theorem view_transitions_are_cyclic :
  (forall ops a,
     view.index (view (apply_ops ops a))
     = (view.index (view a) + offset ops) mod 7) /\
  (forall n a,
     view.index (view (apply_ops (repeat op_Next n) a))
     = (view.index (view a) + Z.of_nat n) mod 7) /\
  (forall n a,
     view.index (view (apply_ops (repeat op_Prev n) a))
     = (view.index (view a) - Z.of_nat n) mod 7) /\
  (forall a, view (DisplayPrevious (set_view view.ViewLatency a))
             = view.ViewStages) /\
  (forall a, view (DisplayNext (set_view view.ViewStages a))
             = view.ViewLatency) /\
  (forall ops a,
     exists! v, In v view.all /\ view.Get (view (apply_ops ops a)) = v).
Proof.
  split; [exact view_apply_ops|].
  split; [intros n a; rewrite view_apply_ops, offset_repeat_Next; reflexivity|].
  split.
  { intros n a. rewrite view_apply_ops, offset_repeat_Prev.
    f_equal. }
  split; [intros a; rewrite view_DisplayPrevious; destruct a; reflexivity|].
  split; [intros a; rewrite view_DisplayNext; destruct a; reflexivity|].
  intros ops a. exists (view (apply_ops ops a)). split.
  - split; [|reflexivity]. destruct (view (apply_ops ops a)); simpl; tauto.
  - intros v [_ H]. exact H.
Qed.

(** ** The latency flag *)

(** C9. After [DisplayNext] or [DisplayPrevious], the table I/O collector
    reports latency when the view reached is Latency, counts when it is Ops,
    and keeps the setting it had when any other view is reached. *)
Theorem view_transition_fixes_latency_setting (o : ViewOp) (a : App) :
  ps_table.wants_latency (tiwsbt (apply_op a o))
  = match view (apply_op a o) with
    | view.ViewLatency => true
    | view.ViewOps => false
    | _ => ps_table.wants_latency (tiwsbt a)
    end.
Proof.
  destruct a as [? ? ? ? ? ? ? ? ? ? ? ? ? ? ? [] ? ? ? ?]; destruct o;
    reflexivity.
Qed.
(** ** Generic facts about the run loop *)

Lemma serve_Exit1 r a a' : serve r a = Exit1 a' -> a' = a.
Proof.
  ready_cases r; cbn [serve event.Type_]; try discriminate.
  - destruct (time.Second <? _); discriminate.
  - intros H; injection H as <-; reflexivity.
Qed.

Lemma Run_invariant (P : App -> Prop) :
  (forall r a, P a -> P (budget_hook (state_after (serve r a)))) ->
  forall sched a, P a -> P (state_of (Run sched a)).
Proof.
  intros Hstep. induction sched as [|r rest IH]; intros a Ha; simpl.
  - destruct (Finished a); exact Ha.
  - destruct (Finished a); [exact Ha|].
    specialize (Hstep r a Ha).
    destruct (serve r a) as [a'|a'] eqn:E.
    + apply IH. exact Hstep.
    + apply serve_Exit1 in E. subst a'. exact Ha.
Qed.

Lemma budget_hook_cases a :
  budget_hook a = a \/
  budget_hook a = set_count (count a - 1) a \/
  budget_hook a = set_finished true (set_count (count a - 1) a).
Proof.
  unfold budget_hook. destruct (stdout a && (0 <? count a)); [|auto].
  cbn [count set_count]. destruct (count a - 1 =? 0); auto.
Qed.

(** ** The relative-statistics mode *)

Lemma SetWantRelativeStats_flags b a :
  want_relative_stats (SetWantRelativeStats b a) = b /\
  (forall c,
     ps_table.want_relative_stats (collector c (SetWantRelativeStats b a))
     = match c with
       | Users => ps_table.want_relative_stats (users a)
       | _ => b
       end) /\
  display.want_relative_stats (display (SetWantRelativeStats b a)) = b /\
  users (SetWantRelativeStats b a) = users a.
Proof.
  destruct a. repeat split. intros c. destruct c; reflexivity.
Qed.

Lemma budget_hook_agree a :
  relative_stats_agree a -> relative_stats_agree (budget_hook a).
Proof.
  destruct (budget_hook_cases a) as [-> | [-> | ->]]; destruct a; trivial.
Qed.

Lemma serve_agree r a :
  relative_stats_agree a -> relative_stats_agree (state_after (serve r a)).
Proof.
  intros Hagree.
  ready_cases r; app_cases a; try exact Hagree;
    try (repeat split; reflexivity);
    cbn; destruct (_ <? _); exact Hagree.
Qed.

Lemma Cleanup_agree a :
  relative_stats_agree a -> relative_stats_agree (Cleanup a).
Proof. destruct a as [? ? ? ? ? ? [d|] ? ? ? ? ? ? ? ? ? ? ? ? ?]; trivial. Qed.

Lemma Setup_agree db i c s l v a0 :
  Setup db i c s l v App_zero = Continue a0 ->
  relative_stats_agree a0 /\
  ps_table.want_relative_stats (users a0) = true.
Proof.
  unfold Setup. destruct (validate_mysql_version db); [discriminate|].
  cbn [SetHelp view set_view set_count set_dbh set_finished set_limit
       set_stdout set_display emit set_help set_trace App_zero].
  intros H; injection H as <-.
  destruct (view.SetByName v _); repeat split; reflexivity.
Qed.

Lemma Run_agree sched a :
  relative_stats_agree a -> relative_stats_agree (state_of (Run sched a)).
Proof.
  apply Run_invariant. intros r x Hx.
  apply budget_hook_agree, serve_agree, Hx.
Qed.

(** C1, as amended. [SetWantRelativeStats b] leaves [b] in the application,
    in the five performance_schema collectors and in the display, and does
    not touch the users collector. [Setup] gives [true] to all of them, the
    users collector included, and wherever the run loop then stands or has
    ended, and after [Cleanup], the application, these five collectors and
    the display hold one and the same value. *)
Theorem relative_stats_mode_is_propagated :
  (forall b a,
     want_relative_stats (SetWantRelativeStats b a) = b /\
     (forall c,
        ps_table.want_relative_stats (collector c (SetWantRelativeStats b a))
        = match c with
          | Users => ps_table.want_relative_stats (users a)
          | _ => b
          end) /\
     display.want_relative_stats (display (SetWantRelativeStats b a)) = b /\
     users (SetWantRelativeStats b a) = users a) /\
  (forall db interval count_ stdout_ limit_ default_view sched a0,
     Setup db interval count_ stdout_ limit_ default_view App_zero
     = Continue a0 ->
     relative_stats_agree a0 /\
     ps_table.want_relative_stats (users a0) = true /\
     relative_stats_agree (state_of (Run sched a0)) /\
     relative_stats_agree (Cleanup (state_of (Run sched a0)))).
Proof.
  split; [exact SetWantRelativeStats_flags|].
  intros db i c s l v sched a0 E.
  destruct (Setup_agree _ _ _ _ _ _ _ E) as [H0 Hu].
  pose proof (Run_agree sched a0 H0) as H1.
  split; [exact H0|]. split; [exact Hu|]. split; [exact H1|].
  apply Cleanup_agree, H1.
Qed.

Lemma relative_stats_mode_is_propagated_witness :
  Setup mysql57 1 3 true 0 "IO" App_zero = Continue started /\
  relative_stats_agree
    (state_of
       (Run [ready_event (event.of_type event.EventToggleWantRelative);
             ready_tick] started)).
Proof.
  split; [reflexivity|].
  exact (proj1 (proj2 (proj2
           (proj2 relative_stats_mode_is_propagated
              mysql57 1 3 true 0 "IO"%string
              [ready_event (event.of_type event.EventToggleWantRelative);
               ready_tick] started eq_refl)))).
Defined.

(** C1, as stated, fails: after [Setup] every collector holds [true];
    [SetWantRelativeStats false] then leaves [true] in the users collector
    and [false] in the others. *)
Lemma relative_stats_mode_skips_users :
  ~ (forall b a c,
       ps_table.want_relative_stats (collector c (SetWantRelativeStats b a))
       = b).
Proof.
  intros H. specialize (H false started Users). vm_compute in H.
  discriminate H.
Qed.

(** ** Resetting the statistics *)

Lemma trace_ResetDBStatistics a :
  trace (ResetDBStatistics a) = trace a ++ reset_calls (view a).
Proof.
  app_cases a; cbn; repeat rewrite <- app_assoc; reflexivity.
Qed.

Lemma collector_ResetDBStatistics a c :
  collector c (ResetDBStatistics a)
  = match c with
    | Users => users a
    | _ => ps_table.SyncReferenceValues (ps_table.Collect (collector c a))
    end.
Proof. app_cases a; destruct c; reflexivity. Qed.

Lemma Setup_Continue db i c s l v :
  validate_mysql_version db = None ->
  exists a0, Setup db i c s l v App_zero = Continue a0.
Proof. intros H. unfold Setup. rewrite H. eexists; reflexivity. Qed.

Lemma Setup_collectors db i c s l v a0 :
  Setup db i c s l v App_zero = Continue a0 ->
  trace a0
  = setup_calls_before ++ reset_calls (view a0) ++ setup_calls_after db /\
  forall k,
    ps_table.collected (collector k a0)
    = match k with Users => 0%nat | _ => 1%nat end /\
    ps_table.synced (collector k a0)
    = match k with Users => 0%nat | _ => 1%nat end.
Proof.
  unfold Setup. destruct (validate_mysql_version db); [discriminate|].
  cbn [SetHelp view set_view set_count set_dbh set_finished set_limit
       set_stdout set_display emit set_help set_trace App_zero].
  intros H; injection H as <-.
  destruct (view.SetByName v _); (split; [reflexivity|]);
    intros k; destruct k; split; reflexivity.
Qed.

(** C2, as amended. [ResetDBStatistics] calls [Collect] on the five
    performance_schema collectors, then [SyncReferenceValues] on the same
    five, then refreshes the display's last-update time; the users collector
    is left as it was. [Setup] makes exactly this pass before it returns, so
    before the run loop starts. *)
Theorem ResetDBStatistics_collects_then_syncs :
  (forall a,
     trace (ResetDBStatistics a) = trace a ++ reset_calls (view a)) /\
  (forall a c,
     collector c (ResetDBStatistics a)
     = match c with
       | Users => users a
       | _ => ps_table.SyncReferenceValues (ps_table.Collect (collector c a))
       end) /\
  (forall db interval count_ stdout_ limit_ default_view a0,
     Setup db interval count_ stdout_ limit_ default_view App_zero
     = Continue a0 ->
     trace a0
     = setup_calls_before ++ reset_calls (view a0) ++ setup_calls_after db /\
     forall k,
       ps_table.collected (collector k a0)
       = match k with Users => 0%nat | _ => 1%nat end /\
       ps_table.synced (collector k a0)
       = match k with Users => 0%nat | _ => 1%nat end).
Proof.
  split; [exact trace_ResetDBStatistics|].
  split; [exact collector_ResetDBStatistics|].
  exact Setup_collectors.
Qed.

Lemma ResetDBStatistics_collects_then_syncs_witness :
  Setup mysql57 1 3 true 0 "IO" App_zero = Continue started /\
  trace started
  = setup_calls_before ++ reset_calls (view started)
    ++ setup_calls_after mysql57.
Proof.
  split; [reflexivity|].
  exact (proj1 (proj2 (proj2 ResetDBStatistics_collects_then_syncs)
                  mysql57 1 3 true 0 "IO"%string started eq_refl)).
Defined.

(** C2, as stated, fails: in the state [Setup] leaves, the users collector
    is neither collected nor synchronised by [ResetDBStatistics]. *)
Lemma ResetDBStatistics_skips_users :
  ~ (forall a c,
       ps_table.collected (collector c (ResetDBStatistics a))
       = S (ps_table.collected (collector c a)) /\
       ps_table.synced (collector c (ResetDBStatistics a))
       = S (ps_table.synced (collector c a))).
Proof.
  intros H. destruct (H started Users) as [H1 _]. vm_compute in H1.
  discriminate H1.
Qed.

(** ** Collecting on a tick *)

Lemma Run_finished sched a : finished a = true -> Run sched a = Returned a sched.
Proof. intros H. destruct sched; simpl; unfold Finished; rewrite H; reflexivity. Qed.

Lemma Run_step r rest a :
  finished a = false ->
  Run (r :: rest) a
  = match serve r a with
    | Exit1 a' => Aborted a' rest
    | Continue a' => Run rest (budget_hook a')
    end.
Proof. intros H. simpl. unfold Finished. rewrite H. reflexivity. Qed.

Lemma Run_nil a : finished a = false -> Run [] a = Blocked a.
Proof. intros H. simpl. unfold Finished. rewrite H. reflexivity. Qed.

Lemma trace_Collect a :
  trace (Collect a)
  = trace a ++ [call_Collect (backing (view a));
                disp_SetLast (backing (view a))].
Proof. app_cases a; cbn; rewrite <- app_assoc; reflexivity. Qed.

Lemma collector_Collect a c :
  collector c (Collect a)
  = if CollectorId_eqb c (backing (view a))
    then ps_table.Collect (collector c a)
    else collector c a.
Proof. app_cases a; destruct c; reflexivity. Qed.

Lemma trace_tick a :
  help a = false ->
  trace (Display (Collect a)) = trace a ++ cycle_calls (view a).
Proof.
  destruct a as [? ? ? ? ? ? ? h ? ? ? ? ? ? ? [] ? ? ? ?];
    cbn [help]; intros ->; cbn; repeat rewrite <- app_assoc; reflexivity.
Qed.

Lemma tick_frame a :
  count (Display (Collect a)) = count a /\
  stdout (Display (Collect a)) = stdout a /\
  finished (Display (Collect a)) = finished a /\
  help (Display (Collect a)) = help a /\
  view (Display (Collect a)) = view a.
Proof. app_cases a; repeat split; reflexivity. Qed.

Lemma collector_tick a c :
  collector c (Display (Collect a))
  = if CollectorId_eqb c (backing (view a))
    then ps_table.Collect (collector c a)
    else collector c a.
Proof. app_cases a; destruct c; reflexivity. Qed.

Lemma collected_tick a c :
  ps_table.collected (collector c (Display (Collect a)))
  = (ps_table.collected (collector c a)
     + if CollectorId_eqb c (backing (view a)) then 1 else 0)%nat.
Proof.
  rewrite collector_tick.
  destruct (CollectorId_eqb c (backing (view a)));
    cbn [ps_table.collected ps_table.Collect]; lia.
Qed.

Lemma tick_fields a :
  help a = false ->
  trace (Display (Collect a)) = trace a ++ cycle_calls (view a) /\
  count (Display (Collect a)) = count a /\
  stdout (Display (Collect a)) = stdout a /\
  finished (Display (Collect a)) = finished a /\
  help (Display (Collect a)) = false /\
  view (Display (Collect a)) = view a /\
  forall c,
    ps_table.collected (collector c (Display (Collect a)))
    = (ps_table.collected (collector c a)
       + if CollectorId_eqb c (backing (view a)) then 1 else 0)%nat.
Proof.
  intros Hh. destruct (tick_frame a) as (H1 & H2 & H3 & H4 & H5).
  split; [exact (trace_tick a Hh)|]. rewrite Hh in H4.
  repeat (split; [assumption|]). exact (collected_tick a).
Qed.

Lemma serve_budget_fields r a :
  stdout (state_after (serve r a)) = stdout a /\
  count (state_after (serve r a)) = count a.
Proof.
  ready_cases r; app_cases a; try (split; reflexivity);
    cbn; destruct (_ <? _); split; reflexivity.
Qed.

Lemma budget_hook_counts a n :
  stdout a = true -> count a = Z.of_nat (S n) ->
  stdout (budget_hook a) = true /\
  count (budget_hook a) = Z.of_nat n /\
  trace (budget_hook a) = trace a /\
  help (budget_hook a) = help a /\
  view (budget_hook a) = view a /\
  (forall c, collector c (budget_hook a) = collector c a) /\
  finished (budget_hook a)
  = match n with O => true | S _ => finished a end.
Proof.
  intros Hs Hc. unfold budget_hook. rewrite Hs, Hc.
  replace (0 <? Z.of_nat (S n)) with true by (symmetry; apply Z.ltb_lt; lia).
  cbn [andb count set_count].
  replace (Z.of_nat (S n) - 1) with (Z.of_nat n) by lia.
  destruct n as [|n].
  - destruct a; cbn in *; repeat split; try assumption;
      intros c; destruct c; reflexivity.
  - replace (Z.of_nat (S n) =? 0) with false
      by (symmetry; apply Z.eqb_neq; lia).
    destruct a; cbn in *; repeat split; try assumption; try lia;
      intros c; destruct c; reflexivity.
Qed.

Lemma Run_ticks K : forall a rest,
  stdout a = true -> count a = Z.of_nat (S K) -> finished a = false ->
  help a = false ->
  exists a',
    Run (repeat ready_tick (S K) ++ rest) a = Returned a' rest /\
    finished a' = true /\ count a' = 0 /\ view a' = view a /\
    trace a' = trace a ++ List.concat (repeat (cycle_calls (view a)) (S K)) /\
    forall c,
      ps_table.collected (collector c a')
      = (ps_table.collected (collector c a)
         + if CollectorId_eqb c (backing (view a)) then S K else 0)%nat.
Proof.
  induction K as [|K IH]; intros a rest Hs Hc Hf Hh;
    cbn [repeat app]; rewrite (Run_step _ _ _ Hf); cbn [serve];
    destruct (tick_fields a Hh) as (Ht & Hc' & Hs' & Hf' & Hh' & Hv' & Hk);
    rewrite Hs in Hs'; rewrite Hc in Hc';
    destruct (budget_hook_counts _ _ Hs' Hc')
      as (Bs & Bc & Bt & Bh & Bv & Bk & Bf).
  - exists (budget_hook (Display (Collect a))).
    rewrite (Run_finished _ _ Bf). repeat split; try assumption.
    + congruence.
    + rewrite Bt, Ht. cbn [repeat List.concat]. rewrite app_nil_r. reflexivity.
    + intros c. rewrite Bk. apply Hk.
  - rewrite Hf', Hf in Bf. rewrite Hh' in Bh.
    destruct (IH _ rest Bs Bc Bf Bh) as (a' & R & F & C & V & T & N).
    exists a'. cbn [repeat app] in R. rewrite R.
    repeat split; try assumption.
    + congruence.
    + rewrite T, Bt, Ht, Bv, Hv'. rewrite <- app_assoc. reflexivity.
    + intros c. rewrite N, Bk, Hk, Bv, Hv'.
      destruct (CollectorId_eqb c (backing (view a))); lia.
Qed.

Lemma Run_budget_bound K : forall sched a,
  stdout a = true -> count a = Z.of_nat (S K) -> finished a = false ->
  (S K <= length sched)%nat ->
  match Run sched a with
  | Returned a' rest =>
      finished a' = true /\ (length sched <= S K + length rest)%nat
  | Blocked _ => False
  | Aborted _ rest => (length sched <= S K + length rest)%nat
  end.
Proof.
  induction K as [|K IH]; intros sched a Hs Hc Hf Hl;
    (destruct sched as [|r sched]; [cbn in Hl; lia|]);
    rewrite (Run_step _ _ _ Hf);
    destruct (serve_budget_fields r a) as [Ss Sc];
    (destruct (serve r a) as [a1|a1]; cbn [state_after] in *;
     [|cbn [length]; lia]);
    rewrite Hs in Ss; rewrite Hc in Sc;
    destruct (budget_hook_counts _ _ Ss Sc)
      as (Bs & Bc & _ & _ & _ & _ & Bf).
  - rewrite (Run_finished _ _ Bf). split; [exact Bf | cbn [length]; lia].
  - destruct (finished a1) eqn:F1.
    + rewrite (Run_finished _ _ Bf). split; [exact Bf | cbn [length]; lia].
    + cbn [length] in Hl.
      specialize (IH sched _ Bs Bc Bf ltac:(lia)).
      destruct (Run sched (budget_hook a1)); cbn [length]; [|exact IH|];
        intuition lia.
Qed.

Lemma Setup_fields db i c s l v a0 :
  Setup db i c s l v App_zero = Continue a0 ->
  count a0 = c /\ stdout a0 = s /\ finished a0 = false /\
  help a0 = false /\ view a0 = view.SetByName v view.ViewLatency /\
  wait_info.WaitInterval (wi a0)
  = Z.max time.Second (time.mul time.Second i) /\
  dbh a0 = Some db.
Proof.
  unfold Setup. destruct (validate_mysql_version db); [discriminate|].
  cbn [SetHelp view set_view set_count set_dbh set_finished set_limit
       set_stdout set_display emit set_help set_trace App_zero].
  intros H; injection H as <-.
  destruct (view.SetByName v _); repeat split; reflexivity.
Qed.

Lemma Setup_IO_run db interval limit_ a0 :
  Setup db interval 3 true limit_ "IO" App_zero = Continue a0 ->
  exists a1,
    Run [ready_tick; ready_tick; ready_tick] a0 = Returned a1 [] /\
    finished a1 = true /\
    trace a1
    = trace a0 ++ cycle_calls view.ViewIO ++ cycle_calls view.ViewIO
      ++ cycle_calls view.ViewIO /\
    forall k,
      ps_table.collected (collector k a0)
      = match k with Users => 0%nat | _ => 1%nat end /\
      ps_table.collected (collector k a1)
      = match k with Users => 0%nat | Fsbi => 4%nat | _ => 1%nat end.
Proof.
  intros H.
  destruct (Setup_fields _ _ _ _ _ _ _ H) as (Hc & Hs & Hf & Hh & Hv & _).
  destruct (Setup_collectors _ _ _ _ _ _ _ H) as [_ Hk].
  change (view.SetByName "IO" view.ViewLatency) with view.ViewIO in Hv.
  destruct (Run_ticks 2 a0 [] Hs Hc Hf Hh) as (a1 & R & F & _ & _ & T & N).
  exists a1. rewrite Hv in T, N. split; [exact R|]. split; [exact F|].
  split.
  - rewrite T. cbn [repeat List.concat]. rewrite app_nil_r. reflexivity.
  - intros k. destruct (Hk k) as [Hk0 _]. split; [exact Hk0|].
    rewrite N, Hk0. destruct k; reflexivity.
Qed.

(** C7, as amended. [Collect] calls [Collect] on one collector, the one
    backing the active view, and leaves every other collector as it was. In
    the stdout scenario with the IO view and a budget of three, the run loop
    collects the file I/O collector three times and no other: the four other
    performance_schema collectors were collected once by [Setup] and never
    again, and the users collector is not collected at all. *)
Theorem Collect_only_the_active_view :
  (forall a,
     trace (Collect a)
     = trace a ++ [call_Collect (backing (view a));
                   disp_SetLast (backing (view a))]) /\
  (forall a c,
     collector c (Collect a)
     = if CollectorId_eqb c (backing (view a))
       then ps_table.Collect (collector c a)
       else collector c a) /\
  (forall db interval limit_ a0,
     Setup db interval 3 true limit_ "IO" App_zero = Continue a0 ->
     exists a1,
       Run [ready_tick; ready_tick; ready_tick] a0 = Returned a1 [] /\
       finished a1 = true /\
       trace a1
       = trace a0 ++ cycle_calls view.ViewIO ++ cycle_calls view.ViewIO
         ++ cycle_calls view.ViewIO /\
       forall k,
         ps_table.collected (collector k a0)
         = match k with Users => 0%nat | _ => 1%nat end /\
         ps_table.collected (collector k a1)
         = match k with Users => 0%nat | Fsbi => 4%nat | _ => 1%nat end).
Proof.
  split; [exact trace_Collect|]. split; [exact collector_Collect|].
  exact Setup_IO_run.
Qed.

Lemma Collect_only_the_active_view_witness :
  Setup mysql57 1 3 true 0 "IO" App_zero = Continue started /\
  exists a1,
    Run [ready_tick; ready_tick; ready_tick] started = Returned a1 [] /\
    finished a1 = true.
Proof.
  split; [reflexivity|].
  destruct (proj2 (proj2 Collect_only_the_active_view)
              mysql57 1 0 started eq_refl) as [a1 [H1 [H2 _]]].
  exists a1. split; assumption.
Defined.

(** C7, as stated, fails in its scenario: [Setup] has not collected the
    users collector once, it has not collected it at all. *)
Lemma Setup_does_not_collect_users :
  ~ (forall c a0,
       c <> Fsbi ->
       Setup mysql57 1 3 true 0 "IO" App_zero = Continue a0 ->
       ps_table.collected (collector c a0) = 1%nat).
Proof.
  intros H. specialize (H Users started).
  assert (E : ps_table.collected (collector Users started) = 1%nat)
    by (apply H; [discriminate | reflexivity]).
  vm_compute in E. discriminate E.
Qed.

(** ** The run budget *)

(** C3, as amended. In the stdout mode with a budget of [K > 0] the budget
    counts iterations of the loop, whatever they served: on at least [K]
    ready cases the loop never waits for more and ends within [K]
    iterations. When the [K] cases are ticks of the timer, the loop makes
    exactly [K] collect-and-display cycles on the collector of the active
    view and then returns with the finished flag set. *)
Theorem Run_budget_counts_iterations (K : nat) (a : App) :
  stdout a = true -> count a = Z.of_nat (S K) -> finished a = false ->
  (help a = false ->
   forall rest,
   exists a',
     Run (repeat ready_tick (S K) ++ rest) a = Returned a' rest /\
     finished a' = true /\ count a' = 0 /\ view a' = view a /\
     trace a'
     = trace a ++ List.concat (repeat (cycle_calls (view a)) (S K)) /\
     forall c,
       ps_table.collected (collector c a')
       = (ps_table.collected (collector c a)
          + if CollectorId_eqb c (backing (view a)) then S K else 0)%nat) /\
  (forall sched,
     (S K <= length sched)%nat ->
     match Run sched a with
     | Returned a' rest =>
         finished a' = true /\ (length sched <= S K + length rest)%nat
     | Blocked _ => False
     | Aborted _ rest => (length sched <= S K + length rest)%nat
     end).
Proof.
  intros Hs Hc Hf. split.
  - intros Hh rest. apply Run_ticks; assumption.
  - intros sched Hl. apply Run_budget_bound; assumption.
Qed.

Lemma Run_budget_counts_iterations_witness :
  exists a',
    Run (repeat ready_tick 3 ++ [ready_signal]) started
    = Returned a' [ready_signal] /\
    finished a' = true /\ count a' = 0.
Proof.
  destruct (proj1 (Run_budget_counts_iterations 2 started
                     eq_refl eq_refl eq_refl) eq_refl [ready_signal])
    as (a' & R & F & C & _).
  exists a'. repeat split; assumption.
Defined.

(** C3, as stated, fails: with a budget of three, a resize event followed by
    three ticks ends the run after two collect-and-display cycles, the third
    tick left unserved. *)
Lemma Run_budget_spent_on_events :
  ~ (forall (K : nat) (sched : list Ready) (a : App),
       stdout a = true -> count a = Z.of_nat (S K) -> finished a = false ->
       help a = false -> (S K <= length (filter is_tick sched))%nat ->
       exists a' rest,
         Run sched a = Returned a' rest /\ finished a' = true /\
         ps_table.collected (collector (backing (view a)) a')
         = (ps_table.collected (collector (backing (view a)) a) + S K)%nat).
Proof.
  intros H.
  destruct (H 2%nat
              [ready_event (event.of_type event.EventResizeScreen);
               ready_tick; ready_tick; ready_tick] started
              eq_refl eq_refl eq_refl eq_refl (le_n 3))
    as (a' & rest & R & _ & C).
  vm_compute in R. injection R as <- <-. vm_compute in C. discriminate C.
Qed.

(** ** The interactive mode *)

Lemma budget_hook_interactive a : stdout a = false -> budget_hook a = a.
Proof. intros H. unfold budget_hook. rewrite H. reflexivity. Qed.

Lemma serve_not_stopping r a :
  stops_loop r = false ->
  exists a1,
    serve r a = Continue a1 /\ finished a1 = finished a /\
    stdout a1 = stdout a /\ count a1 = count a.
Proof.
  ready_cases r; cbn [stops_loop event.Type_]; try discriminate; intros _;
    try (eexists; split; [reflexivity|]; app_cases a; repeat split;
         reflexivity).
  cbn [serve event.Type_]. destruct (_ <? _); eexists;
    (split; [reflexivity|]); destruct a; repeat split; reflexivity.
Qed.

Lemma serve_stopping r a :
  stops_loop r = true ->
  serve r a = if is_error r then Exit1 a else Continue (set_finished true a).
Proof. ready_cases r; cbn [stops_loop event.Type_]; try discriminate; reflexivity. Qed.

Lemma Run_interactive_count sched : forall a,
  stdout a = false -> count (state_of (Run sched a)) = count a.
Proof.
  intros a Hs.
  apply (Run_invariant (fun x => stdout x = false /\ count x = count a));
    [|split; [exact Hs | reflexivity]].
  intros r x [Hx Hc]. destruct (serve_budget_fields r x) as [Ss Sc].
  rewrite budget_hook_interactive by congruence. split; congruence.
Qed.

Lemma Run_interactive_waits sched : forall a,
  stdout a = false -> finished a = false ->
  forallb (fun r => negb (stops_loop r)) sched = true ->
  exists a',
    Run sched a = Blocked a' /\ finished a' = false /\ stdout a' = false.
Proof.
  induction sched as [|r rest IH]; intros a Hs Hf Hall.
  - exists a. rewrite (Run_nil _ Hf). repeat split; assumption.
  - cbn [forallb] in Hall. apply andb_true_iff in Hall as [Hr Hall].
    apply negb_true_iff in Hr.
    destruct (serve_not_stopping r a Hr) as (a1 & E & F1 & S1 & _).
    rewrite (Run_step _ _ _ Hf), E.
    rewrite budget_hook_interactive by congruence.
    apply IH; [congruence | congruence | exact Hall].
Qed.

Lemma Run_interactive_stops pre r rest a :
  stdout a = false -> finished a = false ->
  forallb (fun r => negb (stops_loop r)) pre = true ->
  stops_loop r = true ->
  exists a',
    Run (pre ++ r :: rest) a
    = (if is_error r then Aborted a' rest else Returned a' rest) /\
    finished a' = negb (is_error r).
Proof.
  revert a. induction pre as [|p pre IH]; intros a Hs Hf Hall Hr.
  - cbn [app]. rewrite (Run_step _ _ _ Hf), (serve_stopping _ _ Hr).
    destruct (is_error r).
    + exists a. split; [reflexivity | exact Hf].
    + exists (set_finished true a).
      rewrite budget_hook_interactive by (destruct a; exact Hs).
      rewrite Run_finished by (destruct a; reflexivity).
      split; [reflexivity | destruct a; reflexivity].
  - cbn [forallb] in Hall. apply andb_true_iff in Hall as [Hp Hall].
    apply negb_true_iff in Hp.
    destruct (serve_not_stopping p a Hp) as (a1 & E & F1 & S1 & _).
    cbn [app]. rewrite (Run_step _ _ _ Hf), E.
    rewrite budget_hook_interactive by congruence.
    apply IH; [congruence | congruence | exact Hall | exact Hr].
Qed.

(** C10. With the stdout flag false the budget hook changes nothing: the
    counter keeps its value throughout the run, whatever it is, and the
    finished flag is never set on its account. The loop goes on for as long
    as it is fed ticks and events other than [EventFinished] and
    [EventError]; it ends at the first signal or [EventFinished] (returning
    with the finished flag set) or [EventError] (exiting the process). *)
Theorem interactive_run_ignores_budget (a : App) :
  stdout a = false -> finished a = false ->
  budget_hook a = a /\
  (forall sched, count (state_of (Run sched a)) = count a) /\
  (forall sched,
     forallb (fun r => negb (stops_loop r)) sched = true ->
     exists a',
       Run sched a = Blocked a' /\ finished a' = false /\
       stdout a' = false) /\
  (forall pre r rest,
     forallb (fun r => negb (stops_loop r)) pre = true ->
     stops_loop r = true ->
     exists a',
       Run (pre ++ r :: rest) a
       = (if is_error r then Aborted a' rest else Returned a' rest) /\
       finished a' = negb (is_error r)).
Proof.
  intros Hs Hf. split; [exact (budget_hook_interactive a Hs)|].
  split; [intros sched; apply Run_interactive_count; exact Hs|].
  split.
  - intros sched. apply Run_interactive_waits; assumption.
  - intros pre r rest. apply Run_interactive_stops; assumption.
Qed.

Lemma interactive_run_ignores_budget_witness :
  stdout interactive = false /\ finished interactive = false /\
  count interactive = 3 /\
  count (state_of (Run [ready_tick; ready_tick; ready_tick; ready_tick]
                     interactive)) = 3.
Proof.
  split; [reflexivity|]. split; [reflexivity|]. split; [reflexivity|].
  exact (proj1 (proj2 (interactive_run_ignores_budget interactive
                         eq_refl eq_refl))
           [ready_tick; ready_tick; ready_tick; ready_tick]).
Defined.

(** ** The wait interval *)

Lemma wrap64_small z : - 2 ^ 63 <= z < 2 ^ 63 -> wrap64 z = z.
Proof. intros H. unfold wrap64. rewrite Z.mod_small; lia. Qed.

Lemma seconds_add k :
  0 <= k -> k + 1 <= max_seconds ->
  time.add (k * time.Second) time.Second = (k + 1) * time.Second.
Proof.
  intros H0 H1. unfold time.add, time.Second, max_seconds in *.
  rewrite wrap64_small; lia.
Qed.

Lemma seconds_sub k :
  1 <= k <= max_seconds ->
  time.sub (k * time.Second) time.Second = (k - 1) * time.Second.
Proof.
  intros H. unfold time.sub, time.Second, max_seconds in *.
  rewrite wrap64_small; lia.
Qed.

Lemma serve_interval r a :
  wait_info.WaitInterval (wi (state_after (serve r a)))
  = match r with
    | ready_event e =>
        match event.Type_ e with
        | event.EventDecreasePollTime =>
            if time.Second <? wait_info.WaitInterval (wi a)
            then Z.max time.Second
                   (time.sub (wait_info.WaitInterval (wi a)) time.Second)
            else wait_info.WaitInterval (wi a)
        | event.EventIncreasePollTime =>
            Z.max time.Second
              (time.add (wait_info.WaitInterval (wi a)) time.Second)
        | _ => wait_info.WaitInterval (wi a)
        end
    | _ => wait_info.WaitInterval (wi a)
    end.
Proof.
  ready_cases r; try (app_cases a; reflexivity).
  cbn [serve event.Type_ state_after]. destruct (_ <? _); destruct a;
    reflexivity.
Qed.

Lemma budget_hook_wi a : wi (budget_hook a) = wi a.
Proof.
  destruct (budget_hook_cases a) as [-> | [-> | ->]]; destruct a; reflexivity.
Qed.

Lemma step_floor r a :
  time.Second <= wait_info.WaitInterval (wi a) ->
  time.Second
  <= wait_info.WaitInterval (wi (budget_hook (state_after (serve r a)))).
Proof.
  intros H. rewrite budget_hook_wi, serve_interval.
  destruct r as [| |[t w h]]; [exact H | exact H |].
  destruct t; cbn [event.Type_]; try exact H.
  - destruct (_ <? _); [apply Z.le_max_l | exact H].
  - apply Z.le_max_l.
Qed.

Lemma Run_floor sched a :
  time.Second <= wait_info.WaitInterval (wi a) ->
  time.Second <= wait_info.WaitInterval (wi (state_of (Run sched a))).
Proof.
  apply (Run_invariant
           (fun x => time.Second <= wait_info.WaitInterval (wi x))).
  intros r x Hx. apply step_floor, Hx.
Qed.

Lemma Setup_floor db i c s l v a0 :
  Setup db i c s l v App_zero = Continue a0 ->
  time.Second <= wait_info.WaitInterval (wi a0).
Proof.
  intros E.
  destruct (Setup_fields _ _ _ _ _ _ _ E) as (_ & _ & _ & _ & _ & -> & _).
  apply Z.le_max_l.
Qed.

Lemma decrease_at_floor a :
  wait_info.WaitInterval (wi a) = time.Second ->
  serve decrease_poll a = Continue a.
Proof.
  intros H. unfold decrease_poll. cbn [serve event.Type_ event.of_type].
  rewrite H. rewrite Z.ltb_irrefl. reflexivity.
Qed.

Lemma Run_decreases n : forall a,
  wait_info.WaitInterval (wi a) = time.Second ->
  wait_info.WaitInterval (wi (state_of (Run (repeat decrease_poll n) a)))
  = time.Second.
Proof.
  induction n as [|n IH]; intros a H; cbn [repeat Run].
  - destruct (Finished a); exact H.
  - destruct (Finished a); [exact H|]. rewrite (decrease_at_floor a H).
    apply IH. rewrite budget_hook_wi. exact H.
Qed.

Lemma increase_adds_a_second k a :
  1 <= k -> k + 1 <= max_seconds ->
  wait_info.WaitInterval (wi a) = k * time.Second ->
  wait_info.WaitInterval
    (wi (budget_hook (state_after (serve increase_poll a))))
  = (k + 1) * time.Second.
Proof.
  intros H1 H2 Hk. rewrite budget_hook_wi. unfold increase_poll.
  rewrite serve_interval. cbn [event.Type_ event.of_type].
  rewrite Hk, seconds_add by lia. apply Z.max_r.
  unfold time.Second. lia.
Qed.

Lemma two_increases a :
  wait_info.WaitInterval (wi a) = time.Second ->
  wait_info.WaitInterval
    (wi (budget_hook
           (state_after
              (serve increase_poll
                 (budget_hook (state_after (serve increase_poll a)))))))
  = 3 * time.Second.
Proof.
  intros H.
  apply (increase_adds_a_second 2);
    [lia | unfold max_seconds; lia |].
  apply (increase_adds_a_second 1);
    [lia | unfold max_seconds; lia |].
  rewrite H. reflexivity.
Qed.

(** C4. The wait interval is at least one second wherever the program
    stands: right after [Setup], whatever interval argument it was given,
    and after any number of iterations of the loop, whatever they served.
    A decrease at one second changes nothing, five decreases from one
    second leave one second, two increases from one second give three
    seconds, and an increase adds one second for as long as the result
    fits a duration. *)
Theorem wait_interval_floor :
  (forall db interval count_ stdout_ limit_ default_view a0,
     Setup db interval count_ stdout_ limit_ default_view App_zero
     = Continue a0 ->
     time.Second <= wait_info.WaitInterval (wi a0) /\
     forall sched,
       time.Second
       <= wait_info.WaitInterval (wi (state_of (Run sched a0)))) /\
  (forall a,
     wait_info.WaitInterval (wi a) = time.Second ->
     serve decrease_poll a = Continue a) /\
  (forall a,
     wait_info.WaitInterval (wi a) = time.Second ->
     wait_info.WaitInterval (wi (state_of (Run (repeat decrease_poll 5) a)))
     = time.Second) /\
  (forall a,
     wait_info.WaitInterval (wi a) = time.Second ->
     wait_info.WaitInterval
       (wi (budget_hook
              (state_after
                 (serve increase_poll
                    (budget_hook (state_after (serve increase_poll a)))))))
     = 3 * time.Second) /\
  (forall k a,
     1 <= k -> k + 1 <= max_seconds ->
     wait_info.WaitInterval (wi a) = k * time.Second ->
     wait_info.WaitInterval
       (wi (budget_hook (state_after (serve increase_poll a))))
     = (k + 1) * time.Second).
Proof.
  split.
  { intros db i c s l v a0 E.
    pose proof (Setup_floor _ _ _ _ _ _ _ E) as H0.
    split; [exact H0|]. intros sched. apply Run_floor, H0. }
  split; [exact decrease_at_floor|].
  split; [exact (Run_decreases 5)|].
  split; [exact two_increases | exact increase_adds_a_second].
Qed.

Lemma wait_interval_floor_witness :
  Setup mysql57 0 3 false 0 "" App_zero = Continue zero_interval /\
  time.Second <= wait_info.WaitInterval (wi zero_interval) /\
  time.Second
  <= wait_info.WaitInterval
       (wi (state_of (Run [increase_poll; decrease_poll; decrease_poll]
                        zero_interval))).
Proof.
  split; [reflexivity|].
  destruct (proj1 wait_interval_floor mysql57 0 3 false 0 ""%string
              zero_interval eq_refl) as [H0 H1].
  split; [exact H0 | apply H1].
Defined.

(** ** Cleanup and the ways out of the process *)

Lemma cleanup_calls_app l1 l2 :
  cleanup_calls (l1 ++ l2) = cleanup_calls l1 ++ cleanup_calls l2.
Proof. apply filter_app. Qed.

Lemma serve_trace r a :
  exists l,
    trace (state_after (serve r a)) = trace a ++ l /\ cleanup_calls l = [].
Proof.
  ready_cases r; try (exists []; rewrite app_nil_r; split; reflexivity);
    try (app_cases a; eexists;
         (split; [cbn; rewrite <- ?app_assoc; reflexivity | reflexivity])).
  exists []. rewrite app_nil_r. cbn [serve event.Type_].
  destruct (_ <? _); destruct a; split; reflexivity.
Qed.

Lemma serve_dbh r a : dbh (state_after (serve r a)) = dbh a.
Proof.
  ready_cases r; try (app_cases a; reflexivity).
  cbn [serve event.Type_]. destruct (_ <? _); destruct a; reflexivity.
Qed.

Lemma budget_hook_trace_dbh a :
  trace (budget_hook a) = trace a /\ dbh (budget_hook a) = dbh a.
Proof.
  destruct (budget_hook_cases a) as [-> | [-> | ->]]; destruct a;
    split; reflexivity.
Qed.

Lemma budget_hook_finished a :
  finished a = true -> finished (budget_hook a) = true.
Proof.
  intros H.
  destruct (budget_hook_cases a) as [-> | [-> | ->]]; destruct a;
    try exact H; reflexivity.
Qed.

Lemma Run_no_cleanup db sched a :
  cleanup_calls (trace a) = [] -> dbh a = Some db ->
  cleanup_calls (trace (state_of (Run sched a))) = [] /\
  dbh (state_of (Run sched a)) = Some db.
Proof.
  intros Ht Hd.
  apply (Run_invariant
           (fun x => cleanup_calls (trace x) = [] /\ dbh x = Some db));
    [|split; assumption].
  intros r x [Hx Hdx].
  destruct (budget_hook_trace_dbh (state_after (serve r x))) as [-> ->].
  destruct (serve_trace r x) as (l & -> & Hl).
  rewrite cleanup_calls_app, Hx, Hl, serve_dbh. split; [reflexivity | exact Hdx].
Qed.

Lemma trace_Cleanup db a :
  dbh a = Some db ->
  trace (Cleanup a)
  = trace a ++ [disp_Close; si_RestoreConfiguration; dbh_Close].
Proof.
  destruct a as [? ? ? ? ? ? d ? ? ? ? ? ? ? ? ? ? ? ? ?]; cbn [dbh].
  intros ->. cbn. rewrite <- !app_assoc. reflexivity.
Qed.

Lemma Setup_Exit1 db i c s l v a :
  Setup db i c s l v App_zero = Exit1 a ->
  validate_mysql_version db <> None /\
  trace a = [disp_Setup; disp_ClearAndFlush].
Proof.
  unfold Setup. destruct (validate_mysql_version db); [|discriminate].
  intros H; injection H as <-. split; [discriminate | reflexivity].
Qed.

Lemma Setup_no_cleanup db i c s l v a0 :
  Setup db i c s l v App_zero = Continue a0 ->
  cleanup_calls (trace a0) = [].
Proof.
  intros H. destruct (Setup_collectors _ _ _ _ _ _ _ H) as [-> _].
  destruct (view a0); reflexivity.
Qed.

Lemma main_cleanup db i c s l v sched :
  match main db i c s l v sched with
  | Exited0 a =>
      cleanup_calls (trace a)
      = [disp_Close; si_RestoreConfiguration; dbh_Close]
  | Exited1 a => cleanup_calls (trace a) = []
  | Waiting a => cleanup_calls (trace a) = []
  end.
Proof.
  unfold main. destruct (Setup db i c s l v App_zero) as [a0|a0] eqn:E.
  - pose proof (Setup_no_cleanup _ _ _ _ _ _ _ E) as H0.
    destruct (Setup_fields _ _ _ _ _ _ _ E) as (_ & _ & _ & _ & _ & _ & Hd).
    destruct (Run_no_cleanup db sched a0 H0 Hd) as [H1 H2].
    destruct (Run sched a0) as [a1 rest|a1|a1 rest]; cbn [state_of] in *.
    + rewrite (trace_Cleanup db a1 H2), cleanup_calls_app, H1. reflexivity.
    + exact H1.
    + exact H1.
  - destruct (Setup_Exit1 _ _ _ _ _ _ _ E) as [_ ->]. reflexivity.
Qed.

Lemma main_exit_paths db i c s l v :
  (validate_mysql_version db <> None ->
   forall sched, exists a, main db i c s l v sched = Exited1 a) /\
  (validate_mysql_version db = None ->
   forall t rest,
     t = event.EventFinished \/ t = event.EventError ->
     (exists a, main db i c s l v (ready_signal :: rest) = Exited0 a) /\
     (exists a,
        main db i c s l v (ready_event (event.of_type t) :: rest)
        = match t with
          | event.EventError => Exited1 a
          | _ => Exited0 a
          end)).
Proof.
  split.
  - intros Hv sched. unfold main, Setup.
    destruct (validate_mysql_version db); [|contradiction Hv; reflexivity].
    eexists; reflexivity.
  - intros Hv t rest Ht. unfold main.
    destruct (Setup_Continue db i c s l v Hv) as [a0 E]. rewrite E.
    destruct (Setup_fields _ _ _ _ _ _ _ E) as (_ & _ & Hf & _).
    assert (Hfin : finished (budget_hook (set_finished true a0)) = true)
      by (apply budget_hook_finished; destruct a0; reflexivity).
    split.
    + rewrite (Run_step _ _ _ Hf). cbn [serve].
      rewrite (Run_finished _ _ Hfin). eexists; reflexivity.
    + rewrite (Run_step _ _ _ Hf).
      destruct Ht as [-> | ->]; cbn [serve event.Type_ event.of_type].
      * rewrite (Run_finished _ _ Hfin). eexists; reflexivity.
      * eexists; reflexivity.
Qed.

(** C8, as amended. [Cleanup] (closing the display, restoring the
    instrumentation configuration, closing the connection) runs exactly once
    when [Run] returns: after the budget is used up, a signal or
    [EventFinished]. On a fatal abort, [EventError] in the loop or a failed
    validation in [Setup], the process exits through [log.Fatal] and
    [Cleanup] does not run. *)
Theorem Cleanup_runs_once_unless_fatal :
  (forall db interval count_ stdout_ limit_ default_view sched,
     match main db interval count_ stdout_ limit_ default_view sched with
     | Exited0 a =>
         cleanup_calls (trace a)
         = [disp_Close; si_RestoreConfiguration; dbh_Close]
     | Exited1 a => cleanup_calls (trace a) = []
     | Waiting a => cleanup_calls (trace a) = []
     end) /\
  (forall db interval count_ stdout_ limit_ default_view,
     (validate_mysql_version db <> None ->
      forall sched,
      exists a,
        main db interval count_ stdout_ limit_ default_view sched
        = Exited1 a) /\
     (validate_mysql_version db = None ->
      forall t rest,
        t = event.EventFinished \/ t = event.EventError ->
        (exists a,
           main db interval count_ stdout_ limit_ default_view
             (ready_signal :: rest) = Exited0 a) /\
        (exists a,
           main db interval count_ stdout_ limit_ default_view
             (ready_event (event.of_type t) :: rest)
           = match t with
             | event.EventError => Exited1 a
             | _ => Exited0 a
             end))).
Proof.
  split; [exact main_cleanup | exact main_exit_paths].
Qed.

Lemma Cleanup_runs_once_unless_fatal_witness :
  validate_mysql_version mysql57 = None /\
  exists a, main mysql57 1 0 false 0 "" [ready_signal] = Exited0 a.
Proof.
  split; [reflexivity|].
  exact (proj1 (proj2 (proj2 Cleanup_runs_once_unless_fatal
                         mysql57 1 0 false 0 ""%string)
                  eq_refl event.EventFinished [] (or_introl eq_refl))).
Defined.

(** C8, as stated, fails: when the display reports [EventError] the process
    exits without a single call of [Cleanup]. *)
Lemma fatal_exit_skips_Cleanup :
  ~ (forall db interval count_ stdout_ limit_ default_view sched a,
       main db interval count_ stdout_ limit_ default_view sched = Exited1 a ->
       cleanup_calls (trace a)
       = [disp_Close; si_RestoreConfiguration; dbh_Close]).
Proof.
  intros H.
  assert (E : main mysql57 1 0 false 0 ""
                [ready_event (event.of_type event.EventError)]
              = Exited1 interactive_0) by (vm_compute; reflexivity).
  apply H in E. vm_compute in E. discriminate E.
Qed.

(** ** The version gate *)

Lemma ends_anchored r s i :
  regexp.ends (regexp.Concat regexp.BeginText r) s (S i) = [].
Proof. reflexivity. Qed.

Lemma no_match_after_start r s n m :
  existsb (regexp.matches_at (regexp.Concat regexp.BeginText r) s)
    (seq (S m) n) = false.
Proof.
  revert m. induction n as [|n IH]; intros m; [reflexivity|].
  cbn [seq existsb]. rewrite IH.
  unfold regexp.matches_at. rewrite ends_anchored. reflexivity.
Qed.

Lemma MatchString_anchored r s :
  regexp.MatchString (regexp.Concat regexp.BeginText r) s
  = regexp.matches_at (regexp.Concat regexp.BeginText r) s 0.
Proof.
  unfold regexp.MatchString. cbn [seq existsb].
  rewrite no_match_after_start. apply orb_false_r.
Qed.

Lemma ascii_dec_eqb (A : Type) (c d : ascii) (x y : A) :
  (if ascii_dec c d then x else y) = (if Ascii.eqb c d then x else y).
Proof.
  destruct (ascii_dec c d) as [->|N].
  - rewrite Ascii.eqb_refl. reflexivity.
  - apply Ascii.eqb_neq in N. rewrite N. reflexivity.
Qed.

Lemma matches_re_valid_version v :
  regexp.matches_at re_valid_version v 0 = has_accepted_prefix v.
Proof.
  unfold has_accepted_prefix, accepted_prefixes, regexp.matches_at,
    re_valid_version.
  destruct v as [|c0 [|c1 [|c2 [|c3 rest]]]];
    cbn -[Ascii.eqb ascii_dec]; rewrite ?ascii_dec_eqb;
    ascii_cases; try reflexivity; try (destruct rest; reflexivity);
    exfalso; congruence.
Qed.

Lemma MatchString_re_valid_version v :
  regexp.MatchString re_valid_version v = has_accepted_prefix v.
Proof.
  unfold re_valid_version at 1. rewrite MatchString_anchored.
  apply matches_re_valid_version.
Qed.

Lemma validate_mysql_version_gate db v :
  lib.SelectGlobalVariableByVariableName db "VERSION" = (None, v) ->
  validate_mysql_version db
  = if regexp.MatchString re_valid_version v
    then check_tables db tables
    else Some (lib.VersionError v).
Proof.
  intros H. unfold validate_mysql_version. rewrite H.
  destruct (regexp.MatchString re_valid_version v); reflexivity.
Qed.

Lemma rejected_version_exits db v i c s l name :
  lib.SelectGlobalVariableByVariableName db "VERSION" = (None, v) ->
  regexp.MatchString re_valid_version v = false ->
  exists a,
    Setup db i c s l name App_zero = Exit1 a /\
    trace a = [disp_Setup; disp_ClearAndFlush].
Proof.
  intros Hq Hm. pose proof (validate_mysql_version_gate db v Hq) as Hv.
  rewrite Hm in Hv. unfold Setup. rewrite Hv.
  eexists. split; reflexivity.
Qed.

Lemma accepted_version_continues db v i c s l name :
  lib.SelectGlobalVariableByVariableName db "VERSION" = (None, v) ->
  regexp.MatchString re_valid_version v = true ->
  check_tables db tables = None ->
  exists a0, Setup db i c s l name App_zero = Continue a0.
Proof.
  intros Hq Hm Ht. apply Setup_Continue.
  rewrite (validate_mysql_version_gate db v Hq), Hm. exact Ht.
Qed.

(** C6. The version gate of [Setup] lets a version string through exactly
    when it matches [^(5\.[67]\.|10\.[01])], that is when it starts with
    "5.6.", "5.7.", "10.0" or "10.1": "5.7.21-log", "5.6.40",
    "10.0.38-MariaDB" and "10.1.2" pass, "5.5.50" and "8.0.1" do not. A
    version that does not match makes [validate_mysql_version] return its
    version error and the process exit inside [Setup], after the display was
    set up and before anything else, so before any run loop; one that
    matches leaves only the table checks between [Setup] and its
    completion. *)
Theorem version_gate :
  (forall v,
     regexp.MatchString re_valid_version v = has_accepted_prefix v) /\
  map (regexp.MatchString re_valid_version)
    ["5.7.21-log"; "5.6.40"; "10.0.38-MariaDB"; "10.1.2"; "5.5.50";
     "8.0.1"]%string
  = [true; true; true; true; false; false] /\
  (forall db v,
     lib.SelectGlobalVariableByVariableName db "VERSION" = (None, v) ->
     validate_mysql_version db
     = if regexp.MatchString re_valid_version v
       then check_tables db tables
       else Some (lib.VersionError v)) /\
  (forall db v interval count_ stdout_ limit_ default_view,
     lib.SelectGlobalVariableByVariableName db "VERSION" = (None, v) ->
     regexp.MatchString re_valid_version v = false ->
     exists a,
       Setup db interval count_ stdout_ limit_ default_view App_zero
       = Exit1 a /\
       trace a = [disp_Setup; disp_ClearAndFlush]) /\
  (forall db v interval count_ stdout_ limit_ default_view,
     lib.SelectGlobalVariableByVariableName db "VERSION" = (None, v) ->
     regexp.MatchString re_valid_version v = true ->
     check_tables db tables = None ->
     exists a0,
       Setup db interval count_ stdout_ limit_ default_view App_zero
       = Continue a0).
Proof.
  split; [exact MatchString_re_valid_version|].
  split; [vm_compute; reflexivity|].
  split; [exact validate_mysql_version_gate|].
  split; [exact rejected_version_exits | exact accepted_version_continues].
Qed.

Lemma version_gate_witness :
  lib.SelectGlobalVariableByVariableName mysql55 "VERSION"
  = (None, "5.5.50"%string) /\
  regexp.MatchString re_valid_version "5.5.50" = false /\
  exists a,
    Setup mysql55 1 3 true 0 "IO" App_zero = Exit1 a /\
    trace a = [disp_Setup; disp_ClearAndFlush].
Proof.
  split; [reflexivity|]. split; [vm_compute; reflexivity|].
  apply (proj1 (proj2 (proj2 (proj2 version_gate)))
           mysql55 "5.5.50"%string 1 3 true 0 "IO"%string).
  - reflexivity.
  - vm_compute; reflexivity.
Defined.

(** * Further properties of app.go *)

(** ** Validation *)

Lemma check_tables_None db ts :
  check_tables db ts = None <-> forallb (accessible db) ts = true.
Proof.
  induction ts as [|t ts IH]; cbn [check_tables forallb]; [tauto|].
  unfold accessible at 1. destruct (lib.CheckTableAccess db t).
  - cbn [andb]. split; discriminate.
  - cbn [andb]. exact IH.
Qed.

(** X1. [validate_mysql_version] returns the nil error exactly when the
    VERSION query succeeds, the version matches the pattern and each of the
    five tables can be read; when the query fails it returns the query's
    error, whatever the version string and the tables are. *)
Theorem validate_mysql_version_passes (db : lib.DB) :
  (validate_mysql_version db = None <->
   fst (lib.SelectGlobalVariableByVariableName db "VERSION") = None /\
   regexp.MatchString re_valid_version
     (snd (lib.SelectGlobalVariableByVariableName db "VERSION")) = true /\
   forallb (accessible db) tables = true) /\
  (forall e,
     fst (lib.SelectGlobalVariableByVariableName db "VERSION") = Some e ->
     validate_mysql_version db = Some e).
Proof.
  unfold validate_mysql_version.
  destruct (lib.SelectGlobalVariableByVariableName db "VERSION") as [err v].
  cbn [fst snd]. split.
  - destruct err as [e|].
    + split; [discriminate | intros [H _]; discriminate H].
    + destruct (regexp.MatchString re_valid_version v); cbn [negb].
      * rewrite check_tables_None. tauto.
      * split; [discriminate | intros (_ & H & _); discriminate H].
  - intros e ->. reflexivity.
Qed.

(** X2. The table loop of [validate_mysql_version] stops at the first table
    that cannot be read and returns that table's error: an error comes back
    exactly when some table fails after a run of readable ones, and the
    tables after it play no part. *)
Theorem check_tables_first_failure (db : lib.DB) (ts : list string)
    (e : lib.error) :
  check_tables db ts = Some e <->
  exists ts1 t ts2,
    ts = ts1 ++ t :: ts2 /\
    forallb (accessible db) ts1 = true /\
    lib.CheckTableAccess db t = Some e.
Proof.
  induction ts as [|t ts IH]; cbn [check_tables].
  - split; [discriminate|]. intros (ts1 & u & ts2 & H & _).
    destruct ts1; discriminate H.
  - destruct (lib.CheckTableAccess db t) as [e'|] eqn:E.
    + split.
      * intros H. exists [], t, ts. repeat split. rewrite E. exact H.
      * intros (ts1 & u & ts2 & H & Hall & Hu).
        destruct ts1 as [|t1 ts1]; cbn [app] in H; injection H as -> ->.
        -- congruence.
        -- cbn [forallb] in Hall. unfold accessible at 1 in Hall.
           rewrite E in Hall. discriminate Hall.
    + rewrite IH. split.
      * intros (ts1 & u & ts2 & -> & Hall & Hu).
        exists (t :: ts1), u, ts2. repeat split; [|exact Hu].
        cbn [forallb]. unfold accessible at 1. rewrite E. exact Hall.
      * intros (ts1 & u & ts2 & H & Hall & Hu).
        destruct ts1 as [|t1 ts1]; cbn [app] in H; injection H as -> ->.
        -- congruence.
        -- cbn [forallb] in Hall. apply andb_true_iff in Hall as [_ Hall].
           exists ts1, u, ts2. repeat split; assumption.
Qed.

(** X3. [Setup] ends in [log.Fatal] exactly when [validate_mysql_version]
    returns an error. The process then exits having made two calls only,
    both on the display ([Setup], [ClearAndFlush]): monitoring was never
    enabled, no collector was built or touched, the wait interval was not
    set, and the display was not closed. *)
Theorem Setup_aborts_iff_validation_fails (db : lib.DB)
    (interval count_ : Z) (stdout_ : bool) (limit_ : Z)
    (default_view : string) :
  match validate_mysql_version db,
        Setup db interval count_ stdout_ limit_ default_view App_zero with
  | None, Continue _ => True
  | Some _, Exit1 a =>
      trace a = [disp_Setup; disp_ClearAndFlush] /\
      setup_instruments.monitoring (setup_instruments a) = false /\
      (forall k, collector k a = ps_table.new) /\
      wi a = wait_info.zero /\
      dbh a = Some db
  | _, _ => False
  end.
Proof.
  unfold Setup. destruct (validate_mysql_version db); [|exact I].
  repeat split. intros k; destruct k; reflexivity.
Qed.

(** ** What Setup leaves *)

Lemma Setup_settings db i c s l v a0 :
  Setup db i c s l v App_zero = Continue a0 ->
  limit a0 = l /\
  display.impl (display a0)
  = (if s then display.StdoutDisplay else display.ScreenDisplay) /\
  setup_instruments.monitoring (setup_instruments a0) = true /\
  ps_table.wants_latency (tiwsbt a0) = true /\
  wait_info.collections (wi a0) = 0%nat /\
  forall k,
    ps_table.now_set (collector k a0) = 1%nat /\
    ps_table.want_relative_stats (collector k a0) = true.
Proof.
  unfold Setup. destruct (validate_mysql_version db); [discriminate|].
  cbn [SetHelp view set_view set_count set_dbh set_finished set_limit
       set_stdout set_display emit set_help set_trace App_zero].
  intros H; injection H as <-.
  destruct (view.SetByName v _); repeat split;
    try (destruct k; reflexivity); reflexivity.
Qed.

(** X4. A [Setup] that returns has stored its arguments (count, row limit,
    stdout flag, connection), cleared the finished and help flags, chosen
    the stdout display exactly when the stdout flag is set, enabled
    monitoring, set the wait interval to the interval argument in seconds
    when that is at least one (and fits a duration), and given every one of
    the six collectors, the users collector included, the relative mode and
    one [SetNow]. *)
Theorem Setup_postconditions (db : lib.DB) (interval count_ : Z)
    (stdout_ : bool) (limit_ : Z) (default_view : string) (a0 : App) :
  Setup db interval count_ stdout_ limit_ default_view App_zero
  = Continue a0 ->
  count a0 = count_ /\ limit a0 = limit_ /\ stdout a0 = stdout_ /\
  dbh a0 = Some db /\ finished a0 = false /\ help a0 = false /\
  view a0 = view.SetByName default_view view.ViewLatency /\
  display.impl (display a0)
  = (if stdout_ then display.StdoutDisplay else display.ScreenDisplay) /\
  setup_instruments.monitoring (setup_instruments a0) = true /\
  (1 <= interval <= max_seconds ->
   wait_info.WaitInterval (wi a0) = interval * time.Second) /\
  wait_info.collections (wi a0) = 0%nat /\
  forall k,
    ps_table.now_set (collector k a0) = 1%nat /\
    ps_table.want_relative_stats (collector k a0) = true.
Proof.
  intros E.
  destruct (Setup_fields _ _ _ _ _ _ _ E) as (Hc & Hs & Hf & Hh & Hv & Hw & Hd).
  destruct (Setup_settings _ _ _ _ _ _ _ E) as (Hl & Hi & Hm & _ & Hn & Hk).
  assert (Hw' : 1 <= interval <= max_seconds ->
                wait_info.WaitInterval (wi a0) = interval * time.Second).
  { intros Hi'. rewrite Hw. clear - Hi'.
    unfold time.mul, time.Second, max_seconds in *.
    rewrite wrap64_small by lia. lia. }
  repeat (split; [assumption|]). exact Hk.
Qed.

Lemma Setup_postconditions_witness :
  Setup mysql57 1 3 true 0 "IO" App_zero = Continue started /\
  count started = 3 /\ stdout started = true /\
  view started = view.ViewIO /\
  wait_info.WaitInterval (wi started) = 1000000000.
Proof.
  split; [reflexivity|].
  destruct (Setup_postconditions mysql57 1 3 true 0 "IO"%string started
              eq_refl)
    as (Hc & _ & Hs & _ & _ & _ & Hv & _ & _ & Hw & _).
  split; [exact Hc|]. split; [exact Hs|]. split; [exact Hv|].
  apply Hw. vm_compute. split; discriminate.
Defined.

(** X5. [Setup] sets the latency flag of the table I/O collector to [true]
    without looking at the view, so a run that starts in the Ops view
    reports latency there; the flag follows the view only from the first
    view transition on: leaving Ops and coming back gives [false]. *)
Theorem Setup_wants_latency_in_any_view (db : lib.DB) (interval count_ : Z)
    (stdout_ : bool) (limit_ : Z) (default_view : string) (a0 : App) :
  Setup db interval count_ stdout_ limit_ default_view App_zero
  = Continue a0 ->
  ps_table.wants_latency (tiwsbt a0) = true /\
  (view a0 = view.ViewOps ->
   view (DisplayPrevious (DisplayNext a0)) = view.ViewOps /\
   ps_table.wants_latency (tiwsbt (DisplayPrevious (DisplayNext a0)))
   = false).
Proof.
  intros E.
  destruct (Setup_settings _ _ _ _ _ _ _ E) as (_ & _ & _ & Hw & _).
  split; [exact Hw|]. clear E Hw. intros Hv.
  destruct a0 as [? ? ? ? ? ? ? ? ? ? ? ? ? ? ? vw ? ? ? ?].
  cbn [view] in Hv. subst vw. split; reflexivity.
Qed.

Lemma Setup_wants_latency_in_any_view_witness :
  Setup mysql57 1 0 false 0 "Ops" App_zero
  = Continue (state_after (Setup mysql57 1 0 false 0 "Ops" App_zero)) /\
  view (state_after (Setup mysql57 1 0 false 0 "Ops" App_zero))
  = view.ViewOps /\
  ps_table.wants_latency
    (tiwsbt (state_after (Setup mysql57 1 0 false 0 "Ops" App_zero)))
  = true.
Proof.
  split; [reflexivity|]. split; [reflexivity|].
  exact (proj1 (Setup_wants_latency_in_any_view mysql57 1 0 false 0
                  "Ops"%string _ eq_refl)).
Defined.

(** ** The short host name *)

Lemma short_hostname_no_dot h : has_dot (short_hostname h) = false.
Proof.
  induction h as [|c h IH]; [reflexivity|]. cbn [short_hostname].
  destruct (Ascii.eqb c ".") eqn:E; [reflexivity|].
  cbn [has_dot]. rewrite E. exact IH.
Qed.

Lemma short_hostname_without_dot h :
  has_dot h = false -> short_hostname h = h.
Proof.
  induction h as [|c h IH]; [reflexivity|]. cbn [has_dot short_hostname].
  destruct (Ascii.eqb c "."); cbn [orb]; [discriminate|].
  intros H. rewrite (IH H). reflexivity.
Qed.

Lemma short_hostname_prefix h :
  exists rest,
    h = (short_hostname h ++ rest)%string /\
    (rest = EmptyString \/ exists r, rest = String "." r).
Proof.
  induction h as [|c h (rest & IH & Hrest)].
  - exists EmptyString. split; [reflexivity | left; reflexivity].
  - cbn [short_hostname]. destruct (Ascii.eqb_spec c ".") as [->|N].
    + exists (String "." h). split; [reflexivity|]. right. exists h.
      reflexivity.
    + exists rest. cbn [String.append]. split; [|exact Hrest].
      f_equal. exact IH.
Qed.

(** X6. The host name handed to the display is the name up to its first
    dot: it holds no dot, the full name is it followed either by nothing or
    by a dot and more, a name without a dot is kept whole (the empty name
    included), and shortening twice changes nothing more. *)
Theorem short_hostname_cuts_at_first_dot (h : string) :
  has_dot (short_hostname h) = false /\
  (exists rest,
     h = (short_hostname h ++ rest)%string /\
     (rest = EmptyString \/ exists r, rest = String "." r)) /\
  (has_dot h = false -> short_hostname h = h) /\
  short_hostname (short_hostname h) = short_hostname h.
Proof.
  split; [apply short_hostname_no_dot|].
  split; [apply short_hostname_prefix|].
  split; [apply short_hostname_without_dot|].
  apply short_hostname_without_dot, short_hostname_no_dot.
Qed.

(** ** The shape of the version gate *)

Lemma has_accepted_prefix_first_four v :
  has_accepted_prefix v = has_accepted_prefix (substring 0 4 v).
Proof.
  unfold has_accepted_prefix, accepted_prefixes.
  destruct v as [|c0 [|c1 [|c2 [|c3 rest]]]]; try reflexivity.
  cbn -[Ascii.eqb ascii_dec]. rewrite ?ascii_dec_eqb.
  ascii_cases; try reflexivity; destruct rest; reflexivity.
Qed.

Lemma has_accepted_prefix_short v :
  (String.length v < 4)%nat -> has_accepted_prefix v = false.
Proof.
  unfold has_accepted_prefix, accepted_prefixes.
  destruct v as [|c0 [|c1 [|c2 [|c3 rest]]]]; cbn [String.length];
    intros H; try lia; cbn -[Ascii.eqb ascii_dec]; rewrite ?ascii_dec_eqb;
    ascii_cases; reflexivity.
Qed.

(** X7. The version gate reads the first four characters of the version
    string and nothing else: a string is accepted exactly when its first
    four characters are, whatever follows them, and a string of fewer than
    four characters, the empty one included, is rejected. *)
Theorem version_gate_reads_four_characters :
  (forall v,
     regexp.MatchString re_valid_version v
     = regexp.MatchString re_valid_version (substring 0 4 v)) /\
  (forall v w,
     (4 <= String.length v)%nat ->
     regexp.MatchString re_valid_version (v ++ w)
     = regexp.MatchString re_valid_version v) /\
  (forall v,
     (String.length v < 4)%nat ->
     regexp.MatchString re_valid_version v = false).
Proof.
  split; [|split].
  - intros v. rewrite !MatchString_re_valid_version.
    apply has_accepted_prefix_first_four.
  - intros v w H. rewrite !MatchString_re_valid_version.
    rewrite (has_accepted_prefix_first_four (v ++ w)),
      (has_accepted_prefix_first_four v).
    f_equal.
    destruct v as [|c0 [|c1 [|c2 [|c3 rest]]]]; cbn [String.length] in H;
      try lia. cbn. destruct (rest ++ w)%string; destruct rest; reflexivity.
  - intros v H. rewrite MatchString_re_valid_version.
    apply has_accepted_prefix_short, H.
Qed.

(** ** What one iteration of the loop does *)

(** X8. The loop collects on a tick (the collector of the active view,
    once) and on [EventResetStatistics] (the five performance_schema
    collectors, once each) and on nothing else: a signal, a view change, a
    help or relative-mode toggle, a resize or a poll-time change redraws, if
    at all, from the data already held. Only a tick marks the time of
    collection in the wait information; a reset does not. *)
Theorem only_ticks_and_resets_collect (r : Ready) (a : App) :
  (forall k,
     ps_table.collected (collector k (state_after (serve r a)))
     = (collects_on r (view a) k + ps_table.collected (collector k a))%nat) /\
  wait_info.collections (wi (state_after (serve r a)))
  = ((match r with ready_tick => 1 | _ => 0 end)
     + wait_info.collections (wi a))%nat.
Proof.
  ready_cases r;
    try (app_cases a; (split; [intros k; destruct k|]); reflexivity).
  cbn [serve event.Type_ state_after collects_on].
  destruct (_ <? _); destruct a; split; try reflexivity;
    intros k; destruct k; reflexivity.
Qed.





(** ** How the loop ends *)

Lemma serve_finishing r a :
  stops_loop r = true -> is_error r = false ->
  serve r a = Continue (set_finished true a).
Proof.
  intros Hs He. rewrite (serve_stopping r a Hs), He. reflexivity.
Qed.

(** X10. A signal or [EventFinished] ends the loop at once, in either mode:
    the loop returns with the finished flag set, serves nothing of what is
    still pending, and has made no call on the display or on a collector,
    so no last collection or redraw. A loop entered with the finished flag
    already set returns without serving anything. *)
Theorem signal_ends_Run_at_once (r : Ready) (rest : list Ready) (a : App) :
  finished a = false -> stops_loop r = true -> is_error r = false ->
  (exists a',
     Run (r :: rest) a = Returned a' rest /\
     finished a' = true /\ trace a' = trace a /\ view a' = view a /\
     wi a' = wi a /\ forall k, collector k a' = collector k a) /\
  (forall sched, Run sched (set_finished true a)
                 = Returned (set_finished true a) sched).
Proof.
  intros Hf Hs He. split.
  - rewrite (Run_step _ _ _ Hf), (serve_finishing r a Hs He).
    exists (budget_hook (set_finished true a)).
    rewrite Run_finished
      by (apply budget_hook_finished; destruct a; reflexivity).
    split; [reflexivity|].
    split; [apply budget_hook_finished; destruct a; reflexivity|].
    destruct (budget_hook_cases (set_finished true a)) as [-> | [-> | ->]];
      destruct a; repeat split; intros k; destruct k; reflexivity.
  - intros sched. apply Run_finished. destruct a; reflexivity.
Qed.

Lemma signal_ends_Run_at_once_witness :
  exists a',
    Run [ready_signal; ready_tick; ready_tick] started
    = Returned a' [ready_tick; ready_tick] /\
    finished a' = true /\ trace a' = trace started.
Proof.
  destruct (proj1 (signal_ends_Run_at_once ready_signal
                     [ready_tick; ready_tick] started
                     eq_refl eq_refl eq_refl))
    as (a' & R & F & T & _).
  exists a'. repeat split; assumption.
Defined.

Lemma serve_not_error r a :
  is_error r = false -> exists a1, serve r a = Continue a1.
Proof.
  ready_cases r; cbn [is_error event.Type_]; try discriminate; intros _;
    try (eexists; reflexivity).
  cbn [serve event.Type_]. destruct (_ <? _); eexists; reflexivity.
Qed.

Lemma serve_error r a :
  is_error r = true ->
  serve r a = Exit1 a /\
  exists e, r = ready_event e /\ event.Type_ e = event.EventError.
Proof.
  ready_cases r; cbn [is_error event.Type_]; try discriminate; intros _.
  split; [reflexivity|]. eexists; split; reflexivity.
Qed.

Lemma Run_Blocked_unfinished sched : forall a a',
  Run sched a = Blocked a' -> finished a' = false.
Proof.
  induction sched as [|r rest IH]; intros a a'; cbn [Run]; unfold Finished;
    destruct (finished a) eqn:F; try discriminate.
  - intros H; injection H as <-. exact F.
  - destruct (serve r a); [apply IH | discriminate].
Qed.

Lemma Run_app_Blocked pre : forall a a' sched,
  Run pre a = Blocked a' -> Run (pre ++ sched) a = Run sched a'.
Proof.
  induction pre as [|r pre IH]; intros a a' sched; cbn [Run app];
    unfold Finished; destruct (finished a) eqn:F; try discriminate.
  - intros H; injection H as <-. reflexivity.
  - destruct (serve r a); [apply IH | discriminate].
Qed.

Lemma Run_Aborted_split sched : forall a a' rest,
  Run sched a = Aborted a' rest ->
  exists pre e,
    sched = pre ++ ready_event e :: rest /\
    event.Type_ e = event.EventError /\
    Run pre a = Blocked a'.
Proof.
  induction sched as [|r sched IH]; intros a a' rest; cbn [Run];
    unfold Finished; destruct (finished a) eqn:F; try discriminate.
  destruct (is_error r) eqn:Er.
  - destruct (serve_error r a Er) as (-> & e & -> & He).
    intros H; injection H as <- <-. exists [], e.
    repeat split; [exact He|]. apply Run_nil, F.
  - destruct (serve_not_error r a Er) as [a1 E1]. rewrite E1.
    intros H. destruct (IH _ _ _ H) as (pre & e & -> & He & Hp).
    exists (r :: pre), e. repeat split; [exact He|].
    rewrite (Run_step _ _ _ F), E1. exact Hp.
Qed.

(** X11. [Run] reaches [log.Fatalf] at an [EventError] and nowhere else, in
    either mode: the process exits inside the loop exactly when the loop,
    still unfinished after what came before, is handed an [EventError];
    the state at the exit is the state before the event, and the hook of
    the budget is not run for it. *)
Theorem Run_aborts_exactly_on_EventError (sched rest : list Ready)
    (a a' : App) :
  Run sched a = Aborted a' rest <->
  exists pre e,
    sched = pre ++ ready_event e :: rest /\
    event.Type_ e = event.EventError /\
    Run pre a = Blocked a'.
Proof.
  split; [apply Run_Aborted_split|].
  intros (pre & e & -> & He & Hp).
  rewrite (Run_app_Blocked _ _ _ _ Hp).
  rewrite (Run_step _ _ _ (Run_Blocked_unfinished _ _ _ Hp)).
  destruct e as [t w h]. cbn [event.Type_] in He. subst t. reflexivity.
Qed.

Lemma budget_hook_nonpositive a : count a <= 0 -> budget_hook a = a.
Proof.
  intros H. unfold budget_hook.
  replace (0 <? count a) with false by (symmetry; apply Z.ltb_ge; exact H).
  rewrite andb_false_r. reflexivity.
Qed.

Lemma Run_unbounded_waits sched : forall a,
  count a <= 0 -> finished a = false ->
  forallb (fun r => negb (stops_loop r)) sched = true ->
  exists a',
    Run sched a = Blocked a' /\ finished a' = false /\ count a' = count a.
Proof.
  induction sched as [|r rest IH]; intros a Hc Hf Hall.
  - exists a. rewrite (Run_nil _ Hf). repeat split; assumption.
  - cbn [forallb] in Hall. apply andb_true_iff in Hall as [Hr Hall].
    apply negb_true_iff in Hr.
    destruct (serve_not_stopping r a Hr) as (a1 & E & F1 & _ & C1).
    rewrite (Run_step _ _ _ Hf), E.
    rewrite budget_hook_nonpositive by lia.
    destruct (IH a1 ltac:(lia) ltac:(congruence) Hall)
      as (a' & R & F' & C').
    exists a'. repeat split; [exact R | exact F' | congruence].
Qed.

(** X12. A run budget of zero, or a negative one, is no budget: also in the
    stdout mode the hook then changes nothing, the counter keeps its value
    throughout the run, and the loop goes on for as long as it is fed ticks
    and events other than [EventFinished] and [EventError]. *)
Theorem nonpositive_budget_is_unbounded (a : App) :
  count a <= 0 ->
  budget_hook a = a /\
  (forall sched, count (state_of (Run sched a)) = count a) /\
  (finished a = false ->
   forall sched,
     forallb (fun r => negb (stops_loop r)) sched = true ->
     exists a',
       Run sched a = Blocked a' /\ finished a' = false /\
       count a' = count a).
Proof.
  intros Hc. split; [apply budget_hook_nonpositive, Hc|]. split.
  - intros sched.
    apply (Run_invariant (fun x => count x = count a)); [|reflexivity].
    intros r x Hx. destruct (serve_budget_fields r x) as [_ Sc].
    rewrite budget_hook_nonpositive by lia. congruence.
  - intros Hf sched. apply Run_unbounded_waits; assumption.
Qed.

Lemma nonpositive_budget_is_unbounded_witness :
  stdout unbounded = true /\ count unbounded = 0 /\
  exists a',
    Run [ready_tick; ready_tick; ready_tick; ready_tick] unbounded
    = Blocked a' /\ finished a' = false.
Proof.
  split; [reflexivity|]. split; [reflexivity|].
  destruct (proj2 (proj2 (nonpositive_budget_is_unbounded unbounded
                            ltac:(vm_compute; discriminate)))
              eq_refl [ready_tick; ready_tick; ready_tick; ready_tick]
              eq_refl)
    as (a' & R & F & _).
  exists a'. split; assumption.
Defined.

(** ** The poll time *)

(** X13. On an interval of [k] whole seconds, [k >= 1], an increase
    followed by a decrease gives back [k] seconds; a decrease followed by
    an increase gives back [k] seconds only above the floor: at one second
    the decrease does nothing and the pair leaves two seconds. *)
Theorem poll_time_round_trip (k : Z) (a : App) :
  1 <= k -> k + 1 <= max_seconds ->
  wait_info.WaitInterval (wi a) = k * time.Second ->
  wait_info.WaitInterval
    (wi (state_after
           (serve decrease_poll (state_after (serve increase_poll a)))))
  = k * time.Second /\
  wait_info.WaitInterval
    (wi (state_after
           (serve increase_poll (state_after (serve decrease_poll a)))))
  = (if k =? 1 then 2 else k) * time.Second.
Proof.
  intros H1 H2 Hk. unfold decrease_poll, increase_poll.
  rewrite !serve_interval. cbn [event.Type_ event.of_type]. rewrite Hk.
  split.
  - rewrite seconds_add by lia.
    rewrite (Z.max_r _ ((k + 1) * time.Second))
      by (unfold time.Second; lia).
    replace (time.Second <? (k + 1) * time.Second) with true
      by (symmetry; apply Z.ltb_lt; unfold time.Second; lia).
    rewrite seconds_sub by lia.
    rewrite Z.max_r by (unfold time.Second; lia). f_equal. lia.
  - destruct (Z.eqb_spec k 1) as [E|N].
    + replace (time.Second <? k * time.Second) with false
        by (symmetry; apply Z.ltb_ge; unfold time.Second; lia).
      rewrite seconds_add by lia.
      rewrite Z.max_r by (unfold time.Second; lia). f_equal. lia.
    + replace (time.Second <? k * time.Second) with true
        by (symmetry; apply Z.ltb_lt; unfold time.Second; lia).
      rewrite seconds_sub by lia.
      rewrite (Z.max_r _ ((k - 1) * time.Second))
        by (unfold time.Second; lia).
      rewrite seconds_add by lia.
      rewrite Z.max_r by (unfold time.Second; lia). f_equal. lia.
Qed.

Lemma poll_time_round_trip_witness :
  wait_info.WaitInterval (wi interactive) = 1 * time.Second /\
  wait_info.WaitInterval
    (wi (state_after
           (serve increase_poll
              (state_after (serve decrease_poll interactive)))))
  = 2 * time.Second.
Proof.
  split; [reflexivity|].
  exact (proj2 (poll_time_round_trip 1 interactive
                  ltac:(lia) ltac:(vm_compute; discriminate) eq_refl)).
Defined.

(** ** Cleanup *)

Lemma trace_Cleanup_any a : trace (Cleanup a) = trace a ++ Cleanup_trace a.
Proof.
  destruct a as [? ? ? ? ? ? [d|] ? ? ? ? ? ? ? ? ? ? ? ? ?]; cbn;
    rewrite <- ?app_assoc; reflexivity.
Qed.

(** X14. [Cleanup] always closes the display; it restores the
    instrumentation configuration and closes the connection only when the
    handle is not nil. It keeps the handle, so a second [Cleanup] makes the
    same calls once more. *)
Theorem Cleanup_makes_its_calls_each_time (a : App) :
  trace (Cleanup a) = trace a ++ Cleanup_trace a /\
  dbh (Cleanup a) = dbh a /\
  trace (Cleanup (Cleanup a))
  = trace a ++ Cleanup_trace a ++ Cleanup_trace a /\
  setup_instruments.monitoring (setup_instruments (Cleanup a))
  = match dbh a with
    | Some _ => false
    | None => setup_instruments.monitoring (setup_instruments a)
    end.
Proof.
  assert (Hd : dbh (Cleanup a) = dbh a)
    by (destruct a as [? ? ? ? ? ? [d|] ? ? ? ? ? ? ? ? ? ? ? ? ?];
        reflexivity).
  split; [apply trace_Cleanup_any|]. split; [exact Hd|]. split.
  - rewrite trace_Cleanup_any, trace_Cleanup_any. unfold Cleanup_trace.
    rewrite Hd, <- app_assoc. reflexivity.
  - destruct a as [? ? ? ? ? ? [d|] ? ? ? ? ? ? ? ? ? ? ? ? ?]; reflexivity.
Qed.

(** ** What the loop leaves alone *)

Lemma serve_configuration r a :
  configuration (state_after (serve r a)) = configuration a.
Proof.
  ready_cases r; try (app_cases a; reflexivity).
  cbn [serve event.Type_]. destruct (_ <? _); destruct a; reflexivity.
Qed.

Lemma budget_hook_configuration a :
  configuration (budget_hook a) = configuration a.
Proof.
  destruct (budget_hook_cases a) as [-> | [-> | ->]]; destruct a;
    reflexivity.
Qed.

(** X15. Whatever the loop is fed, [Run] never writes the stdout flag, the
    row limit, the connection handle, the instrumentation state, the kind of
    display or the host-name and version fields of [App]: monitoring, once
    enabled by [Setup], stays enabled until [Cleanup]. *)
Theorem Run_keeps_configuration (sched : list Ready) (a : App) :
  configuration (state_of (Run sched a)) = configuration a.
Proof.
  apply (Run_invariant (fun x => configuration x = configuration a));
    [|reflexivity].
  intros r x Hx. rewrite budget_hook_configuration, serve_configuration.
  exact Hx.
Qed.

(** X16. Each ready case of the loop writes its own setting and no other:
    the view moves on [EventViewNext] and [EventViewPrev] only, the help
    flag flips on [EventHelp] only, the relative mode flips on
    [EventToggleWantRelative] only, the finished flag is set by a signal
    and by [EventFinished] only and is never cleared, and the budget
    counter is written by none of them (only by the hook that follows). *)
Theorem events_write_their_own_setting (r : Ready) (a : App) :
  view (state_after (serve r a))
  = (if is_event event.EventViewNext r then view.SetNext (view a)
     else if is_event event.EventViewPrev r then view.SetPrev (view a)
     else view a) /\
  help (state_after (serve r a))
  = (if is_event event.EventHelp r then negb (help a) else help a) /\
  want_relative_stats (state_after (serve r a))
  = (if is_event event.EventToggleWantRelative r
     then negb (want_relative_stats a) else want_relative_stats a) /\
  finished (state_after (serve r a))
  = (if stops_loop r && negb (is_error r) then true else finished a) /\
  count (state_after (serve r a)) = count a.
Proof.
  ready_cases r; try (app_cases a; repeat split; reflexivity).
  cbn [serve event.Type_]. destruct (_ <? _); destruct a;
    repeat split; reflexivity.
Qed.

(** ** The calls of a view transition *)

Lemma trace_DisplayNext a :
  trace (DisplayNext a)
  = trace a ++ latency_calls (view.SetNext (view a)) ++ [disp_ClearAndFlush].
Proof. app_cases a; cbn; rewrite <- ?app_assoc; reflexivity. Qed.

Lemma trace_DisplayPrevious a :
  trace (DisplayPrevious a)
  = trace a ++ latency_calls (view.SetPrev (view a)) ++ [disp_ClearAndFlush].
Proof. app_cases a; cbn; rewrite <- ?app_assoc; reflexivity. Qed.

(** X17. A view transition writes the view and, on reaching Latency or
    Ops, the latency flag of the table I/O collector, and nothing else in
    the application; it calls [SetWantsLatency] at most once and then
    clears the display once. It collects nothing: the view reached is drawn
    from what was last collected for it. [DisplayPrevious] undoes the view
    change of [DisplayNext] and the other way round. *)
Theorem view_transition_calls (a : App) :
  trace (DisplayNext a)
  = trace a ++ latency_calls (view.SetNext (view a))
    ++ [disp_ClearAndFlush] /\
  trace (DisplayPrevious a)
  = trace a ++ latency_calls (view.SetPrev (view a))
    ++ [disp_ClearAndFlush] /\
  set_trace (trace a)
    (set_tiwsbt (ps_table.SetWantsLatency
                   (ps_table.wants_latency (tiwsbt a))
                   (tiwsbt (DisplayNext a)))
       (set_view (view a) (DisplayNext a))) = a /\
  set_trace (trace a)
    (set_tiwsbt (ps_table.SetWantsLatency
                   (ps_table.wants_latency (tiwsbt a))
                   (tiwsbt (DisplayPrevious a)))
       (set_view (view a) (DisplayPrevious a))) = a /\
  view (DisplayPrevious (DisplayNext a)) = view a /\
  view (DisplayNext (DisplayPrevious a)) = view a.
Proof.
  split; [apply trace_DisplayNext|]. split; [apply trace_DisplayPrevious|].
  destruct a as [? ? ? ? ? ? ? ? ? ? [] ? ? ? ? [] ? ? ? ?];
    repeat split; reflexivity.
Qed.

(** ** Which events redraw *)

(** X18. The loop draws (help page, or uptime and view routine, as
    [Display] decides in the state the event leaves) once after a tick, a
    view change, a relative-mode toggle, a statistics reset and a resize,
    and not at all after a signal, [EventFinished], a poll-time change or
    [EventHelp]: toggling the help clears the display and draws nothing
    until the next tick or redrawing event. *)
Theorem events_that_redraw (r : Ready) (a : App) :
  draw_calls (trace (state_after (serve r a)))
  = draw_calls (trace a)
    ++ (if redraws r then display_calls (state_after (serve r a)) else []).
Proof.
  unfold draw_calls.
  ready_cases r;
    try (app_cases a; cbn; rewrite ?filter_app; cbn;
         rewrite <- ?app_assoc, ?app_nil_r; reflexivity).
  cbn [serve event.Type_ redraws]. rewrite app_nil_r.
  destruct (_ <? _); destruct a; reflexivity.
Qed.

(** ** The calls of a relative-mode change *)

Lemma trace_SetWantRelativeStats b a :
  trace (SetWantRelativeStats b a) = trace a ++ relative_stats_calls b.
Proof. destruct a; cbn; rewrite <- ?app_assoc; reflexivity. Qed.

(** X19. [SetWantRelativeStats b] makes six calls, in this order: the new
    value to the file I/O, table lock, table I/O, mutex and stages
    collectors, then to the display. It collects nothing and synchronises
    nothing: in every collector the counts of [Collect],
    [SyncReferenceValues] and [SetNow] and the latency flag are as before,
    so the reference values that relative figures are measured from stay
    those of the last reset. *)
Theorem SetWantRelativeStats_calls (b : bool) (a : App) :
  trace (SetWantRelativeStats b a) = trace a ++ relative_stats_calls b /\
  forall k,
    ps_table.SetWantRelativeStats
      (ps_table.want_relative_stats (collector k a))
      (collector k (SetWantRelativeStats b a))
    = collector k a.
Proof.
  split; [apply trace_SetWantRelativeStats|].
  intros k.
  destruct a as [? ? ? ? ? ? ? ? ? [] [] [] [] [] [] ? ? ? ? ?];
    destruct k; reflexivity.
Qed.
